(** * BruteWordsCrank: the wordlist generator, embedded and verified

    A shallow embedding of [BruteWordsCrank.py].  Python's [int] is [Z]
    (both are unbounded), [str] is [string], a tuple of one-character
    strings is a [list ascii], the lazily evaluated iterators of
    [itertools] are finite lists together with the exception, if any, that
    the iterator raises once the list is used up, and the two files the
    program touches (the word list and its [.session] companion) live in a
    finite map from paths to contents.

    Environment: CPython 3.11 on a 64-bit machine with its default
    settings, whose limits on the size of a count ([sys.maxsize]) and on
    the number of digits of an integer turned into text or read from it
    are part of the model.  Every file operation succeeds (the [IOError]
    handlers are not entered).  What goes to the console is not modelled,
    only whether formatting it raises; the progress bar is not modelled
    beyond the counter [pbar.n], and the theorems about a run keep the
    numbers it is given far inside the range of a float ([float_ok]).  A
    [KeyboardInterrupt] is delivered, if at all, at the top of an
    iteration of the writing loop. *)

From Stdlib Require Import ZArith List String Ascii Lia Decimal DecimalString
  DecimalPos DecimalZ.
From stdpp Require Import base option list gmap strings.

Local Open Scope string_scope.
Local Open Scope list_scope.
Local Open Scope Z_scope.

(** ** Python values and control flow *)

Inductive pyexn : Type :=
  | TypeError
  | ValueError
  | ZeroDivisionError
  | SystemExit (code : Z).

(** What evaluating a piece of code gives: a value, an exception that
    propagates, or ([NotInt]) a float where the model tracks integers
    only -- Python's [int ** negative int] is a float. *)
Inductive outcome (A : Type) : Type :=
  | Ok (a : A)
  | Raise (e : pyexn)
  | NotInt.
Arguments Ok {A} a.
Arguments Raise {A} e.
Arguments NotInt {A}.

#[global] Instance outcome_ret : MRet outcome := fun A a => Ok a.
#[global] Instance outcome_bind : MBind outcome := fun A B f m =>
  match m with
  | Ok a => f a
  | Raise e => Raise e
  | NotInt => NotInt
  end.

(** Truth value of an optional string ([None] and [''] are falsy) and of
    an optional integer ([None] and [0] are falsy). *)
Definition truthy_str (s : option string) : bool :=
  match s with
  | Some (String _ _) => true
  | _ => false
  end.

Definition truthy_int (n : option Z) : bool :=
  match n with
  | Some z => negb (z =? 0)
  | None => false
  end.

(** [range(lo, hi)] *)
Definition py_range (lo hi : Z) : list Z :=
  map (fun i => lo + Z.of_nat i) (seq 0 (Z.to_nat (hi - lo))).

(** [b ** e] on integers *)
Definition py_pow (b e : Z) : outcome Z :=
  if e <? 0 then (if b =? 0 then Raise ZeroDivisionError else NotInt)
  else Ok (b ^ e).

(** [sum(f(i) for i in l)]: left to right from 0, stopping at the first
    term that does not evaluate to an integer. *)
Fixpoint py_sum_from (acc : Z) (f : Z -> outcome Z) (l : list Z) : outcome Z :=
  match l with
  | [] => Ok acc
  | i :: l' => t ← f i; py_sum_from (acc + t) f l'
  end.

Definition py_sum (f : Z -> outcome Z) (l : list Z) : outcome Z :=
  py_sum_from 0 f l.

(** ** Limits of the interpreter *)

(** [sys.maxsize] *)
Definition sys_maxsize : Z := 2 ^ 63 - 1.

(** [sys.get_int_max_str_digits()]: an integer is turned into decimal text,
    or read from it, only up to this number of digits. *)
Definition int_max_str_digits : Z := 4300.

(** The number of digits of the decimal numeral of [z]. *)
Definition decimal_digits (z : Z) : Z :=
  match z with
  | Z0 => 1
  | Zpos p | Zneg p => Z.of_nat (nb_digits (Pos.to_uint p))
  end.

(** Whether [z] has few enough digits to be written out (the sign does
    not count). *)
Definition str_ok (z : Z) : bool := decimal_digits z <=? int_max_str_digits.

(** ** Strings: [str(int)], [str.strip()], [int(str)] *)

(** The decimal numeral of [z], with a minus sign below zero. *)
Definition numeral (z : Z) : string := NilZero.string_of_int (Z.to_int z).

(** [str(z)], also [f"{z}"]: the numeral, or [ValueError] when it would
    have too many digits. *)
Definition py_str (z : Z) : outcome string :=
  if str_ok z then Ok (numeral z) else Raise ValueError.

(** [f"{z:,}"] inside a [print]: the text goes to the console; what
    matters here is that it is subject to the same limit. *)
Definition print_thousands (z : Z) : outcome unit :=
  if str_ok z then Ok tt else Raise ValueError.

(** [str.isspace] on the code points below 256 *)
Definition is_space (c : ascii) : bool :=
  let n := nat_of_ascii c in
  ((9 <=? n) && (n <=? 13) || (28 <=? n) && (n <=? 32)
   || (n =? 133) || (n =? 160))%nat.

Fixpoint lstrip (s : string) : string :=
  match s with
  | String c s' => if is_space c then lstrip s' else s
  | EmptyString => EmptyString
  end.

Fixpoint rstrip (s : string) : string :=
  match s with
  | EmptyString => EmptyString
  | String c s' =>
      match rstrip s' with
      | EmptyString => if is_space c then EmptyString else String c EmptyString
      | r => String c r
      end
  end.

Definition py_strip (s : string) : string := rstrip (lstrip s).

Definition digit_val (c : ascii) : option Z :=
  let n := nat_of_ascii c in
  if ((48 <=? n) && (n <=? 57))%nat then Some (Z.of_nat n - 48) else None.

(** Decimal digits, with single underscores allowed between digits;
    [prev] tells whether the previous character was a digit. *)
Fixpoint parse_digits (s : string) (acc : Z) (prev : bool) : option Z :=
  match s with
  | EmptyString => if prev then Some acc else None
  | String c s' =>
      match digit_val c with
      | Some d => parse_digits s' (10 * acc + d) true
      | None =>
          if (Ascii.eqb c "_" && prev)%bool then parse_digits s' acc false
          else None
      end
  end.

(** The number of decimal digits in a string. *)
Fixpoint count_digits (s : string) : Z :=
  match s with
  | EmptyString => 0
  | String c s' =>
      match digit_val c with
      | Some _ => 1 + count_digits s'
      | None => count_digits s'
      end
  end.

(** [int(s)] for a decimal literal: surrounding white space, an optional
    sign, digits, and no more digits than the interpreter converts.
    [None] stands for [ValueError]. *)
Definition py_int (s : string) : option Z :=
  let body := py_strip s in
  if int_max_str_digits <? count_digits body then None
  else
    match body with
    | String "-" s' => Z.opp <$> parse_digits s' 0 false
    | String "+" s' => parse_digits s' 0 false
    | s' => parse_digits s' 0 false
    end.

(** ** itertools *)

Module itertools.

(** A lazy iterator: the items it yields, then how it ends -- [Ok tt]
    when it is exhausted, otherwise what pulling the next item raises. *)
Record iter (A : Type) : Type := Iter { items : list A; at_end : outcome unit }.
Arguments Iter {A} items at_end.
Arguments items {A} i.
Arguments at_end {A} i.

Section Combinatorics.
Context {A : Type}.

(** [product] over a list of pools: nested loops, the leftmost pool
    outermost. *)
Fixpoint product (pools : list (list A)) : list (list A) :=
  match pools with
  | [] => [[]]
  | p :: ps => flat_map (fun x => map (cons x) (product ps)) p
  end.

(** [product(pool, repeat=r)] *)
Definition product_repeat (pool : list A) (r : Z) : outcome (list (list A)) :=
  if r <? 0 then Raise ValueError
  else Ok (product (repeat pool (Z.to_nat r))).

(** Every way of taking one element out of a list, by position. *)
Fixpoint selections (l : list A) : list (A * list A) :=
  match l with
  | [] => []
  | x :: t => (x, t) :: map (fun yr => (fst yr, x :: snd yr)) (selections t)
  end.

Fixpoint permutations_of_length (n : nat) (l : list A) : list (list A) :=
  match n with
  | O => [[]]
  | S n' =>
      flat_map (fun xr => map (cons (fst xr)) (permutations_of_length n' (snd xr)))
               (selections l)
  end.

(** [permutations(l)]: positions filled left to right, each from the
    elements not yet used, in input order. *)
Definition permutations (l : list A) : list (list A) :=
  permutations_of_length (length l) l.

(** [chain.from_iterable(product(pool, repeat=r) for r in lens)]: the
    products are built one after the other as the chain reaches them. *)
Fixpoint chain_products (pool : list A) (lens : list Z) : iter (list A) :=
  match lens with
  | [] => Iter [] (Ok tt)
  | r :: lens' =>
      match product_repeat pool r with
      | Ok ws =>
          let rest := chain_products pool lens' in
          Iter (ws ++ items rest) (at_end rest)
      | Raise e => Iter [] (Raise e)
      | NotInt => Iter [] NotInt
      end
  end.

(** What is left of an iterator after [for _ in islice(it, n): pass],
    or the exception met on the way.  [islice] itself refuses a stop
    value that is negative or above [sys.maxsize]. *)
Definition islice_consume (n : Z) (it : iter (list A)) : outcome (iter (list A)) :=
  if (n <? 0) || (sys_maxsize <? n) then Raise ValueError
  else if (Z.of_nat (length (items it)) <? n) then
    (at_end it;; Ok (Iter [] (at_end it)))
  else Ok (Iter (drop (Z.to_nat n) (items it)) (at_end it)).

End Combinatorics.

End itertools.

(** ** The program *)

Definition chars (s : string) : list ascii := list_ascii_of_string s.

(** [str.join] with the empty separator *)
Definition join (w : list ascii) : string := string_of_list_ascii w.

Definition newline : string := String "010" "".

Definition lowercase : string := "abcdefghijklmnopqrstuvwxyz".
Definition digits : string := "0123456789".
Definition symbols : string :=
  "!@#$%^&*()_+-=[]{}|;':" +:+ String "034" ",./<>?`~".

Definition CHARSET_MAP : list (ascii * list ascii) :=
  [ ("@"%char, chars lowercase);
    ("%"%char, chars digits);
    ("^"%char, chars symbols) ].

(** [CHARSET_MAP.get(c, [c])] *)
Definition CHARSET_MAP_get (c : ascii) : list ascii :=
  match find (fun kv => Ascii.eqb (fst kv) c) CHARSET_MAP with
  | Some kv => snd kv
  | None => [c]
  end.

(** The parsed command line ([argparse.Namespace]). *)
Record Namespace : Type := {
  min_len : option Z;
  max_len : option Z;
  charset : string;
  pattern : option string;
  permutations : option string;
  prefix : string;
  suffix : string;
  output : string;
  limit : option Z;
  resume : bool
}.

(** The file store: path to contents. *)
Abbreviation FS := (gmap string string).

Inductive warning : Type :=
  | CharsetIgnored
  | LengthPatternIgnored.

Module WordlistGenerator.

Record t : Type := {
  args : Namespace;
  total_combinations : Z;
  session_file : string
}.

Definition validate_args (a : Namespace) : outcome (list warning) :=
  match min_len a, max_len a with
  | Some lo, Some hi =>
      if hi <? lo then Raise (SystemExit 1)
      else
        Ok ((if truthy_str (pattern a) && negb (String.eqb (charset a) lowercase)
             then [CharsetIgnored] else [])
            ++
            (if truthy_str (permutations a)
                && (truthy_int (min_len a) || truthy_int (max_len a)
                    || truthy_str (pattern a))
             then [LengthPatternIgnored] else []))
  | _, _ => Raise TypeError
  end.

Definition _estimate_combinations (a : Namespace) : outcome Z :=
  if truthy_str (permutations a) then
    Ok (Z.of_nat (length (itertools.permutations (chars (default "" (permutations a))))))
  else if truthy_str (pattern a) then
    Ok (fold_left (fun count c => count * Z.of_nat (length (CHARSET_MAP_get c)))
                  (chars (default "" (pattern a))) 1)
  else
    let charset_len := Z.of_nat (length (chars (charset a))) in
    match min_len a, max_len a with
    | Some lo, Some hi => py_sum (fun i => py_pow charset_len i) (py_range lo (hi + 1))
    | _, _ => Raise TypeError
    end.

Definition __init__ (a : Namespace) : outcome t :=
  validate_args a;;
  total ← _estimate_combinations a;
  Ok {| args := a; total_combinations := total;
        session_file := output a +:+ ".session" |}.

Definition _get_start_point (self : t) (fs : FS) : Z :=
  if resume (args self) then
    match fs !! session_file self with
    | Some content =>
        match py_int (py_strip content) with
        | Some last_count =>
            (* the message of line 67 is formatted inside the [try] *)
            match py_str last_count with
            | Ok _ => last_count
            | _ => 0
            end
        | None => 0
        end
    | None => 0
    end
  else 0.

(** [open(.., 'w')] empties the record before [str(count)] is evaluated. *)
Definition _save_progress (self : t) (count : Z) (fs : FS) : FS * outcome unit :=
  let fs := <[session_file self := ""]> fs in
  match py_str count with
  | Ok s => (<[session_file self := s]> fs, Ok tt)
  | Raise e => (fs, Raise e)
  | NotInt => (fs, NotInt)
  end.

(** [open(path, 'a')] keeps what is there, [open(path, 'w')] truncates. *)
Definition open_output (path : string) (append : bool) (fs : FS) : FS :=
  if append then
    match fs !! path with
    | Some _ => fs
    | None => <[path := ""]> fs
    end
  else <[path := ""]> fs.

Definition fwrite (path : string) (s : string) (fs : FS) : FS :=
  <[path := default "" (fs !! path) +:+ s]> fs.

(** One output line: [f"{prefix}{word}{suffix}\n"]. *)
Definition render (a : Namespace) (word_tuple : list ascii) : string :=
  prefix a +:+ join word_tuple +:+ suffix a +:+ newline.

(** The [for word_tuple in generator] loop of [_write_to_file].
    [sigint = Some k]: the interrupt arrives when [k] more words have been
    handled; the handler saves [pbar.n], which is [count], and exits 0.
    No handler of the loop catches what [_save_progress] raises. *)
Fixpoint write_loop (self : t) (limit : Z) (ws : list (list ascii))
    (fin : outcome unit) (count : Z) (sigint : option nat) (fs : FS)
    : FS * outcome unit :=
  match sigint with
  | Some O =>
      let '(fs, r) := _save_progress self count fs in
      (fs, r;; Raise (SystemExit 0))
  | _ =>
      match ws with
      | [] => (fs, fin)
      | word_tuple :: ws' =>
          if limit <=? count then (fs, Ok tt)
          else
            let fs := fwrite (output (args self)) (render (args self) word_tuple) fs in
            let count := count + 1 in
            let '(fs, r) := if count mod 10000 =? 0
                            then _save_progress self count fs
                            else (fs, Ok tt) in
            match r with
            | Ok _ => write_loop self limit ws' fin count (Nat.pred <$> sigint) fs
            | _ => (fs, r)
            end
      end
  end.

(** [_write_to_file]: open the word list (append when resuming), discard
    the words already written, run the loop.  A write is taken to reach
    the file at once; the [with] block flushes the buffer on every way
    out, so the final contents are the same. *)
Definition _write_to_file (self : t) (generator : itertools.iter (list ascii))
    (start_count limit : Z) (sigint : option nat) (fs : FS)
    : FS * outcome unit :=
  let fs := open_output (output (args self)) (0 <? start_count) fs in
  match (if 0 <? start_count
         then itertools.islice_consume start_count generator
         else Ok generator) with
  | Ok rest =>
      write_loop self limit (itertools.items rest) (itertools.at_end rest)
                 start_count sigint fs
  | Raise e => (fs, Raise e)
  | NotInt => (fs, NotInt)
  end.

Definition permutations_generator (a : Namespace) : itertools.iter (list ascii) :=
  itertools.Iter (itertools.permutations (chars (default "" (permutations a)))) (Ok tt).

Definition combinations_generator (a : Namespace)
    : outcome (itertools.iter (list ascii)) :=
  if truthy_str (pattern a) then
    let char_options := map CHARSET_MAP_get (chars (default "" (pattern a))) in
    Ok (itertools.Iter (itertools.product char_options) (Ok tt))
  else
    match min_len a, max_len a with
    | Some lo, Some hi =>
        Ok (itertools.chain_products (chars (charset a)) (py_range lo (hi + 1)))
    | _, _ => Raise TypeError
    end.

Definition _generate_permutations (self : t) (start_count limit : Z)
    (sigint : option nat) (fs : FS) : FS * outcome unit :=
  _write_to_file self (permutations_generator (args self)) start_count limit sigint fs.

Definition _generate_combinations (self : t) (start_count limit : Z)
    (sigint : option nat) (fs : FS) : FS * outcome unit :=
  match combinations_generator (args self) with
  | Ok generator => _write_to_file self generator start_count limit sigint fs
  | Raise e => (fs, Raise e)
  | NotInt => (fs, NotInt)
  end.

(** Lines 78-80 of [run_generation]. *)
Definition effective_limit (user_limit : option Z) (total : Z) : Z :=
  if truthy_int user_limit && (default 0 user_limit <? total)
  then default 0 user_limit
  else total.

(** Lines 82-84 of [run_generation]: the size, then the limit if one is
    set, each printed with thousands separators. *)
Definition announce (total : Z) (user_limit : option Z) : outcome unit :=
  print_thousands total;;
  if truthy_int user_limit then print_thousands (default 0 user_limit)
  else Ok tt.

Definition run_generation (self : t) (sigint : option nat) (fs : FS)
    : FS * outcome unit :=
  let start_count := _get_start_point self fs in
  let user_limit := limit (args self) in
  let limit := effective_limit user_limit (total_combinations self) in
  match announce (total_combinations self) user_limit with
  | Ok _ =>
      let '(fs, r) :=
        if truthy_str (permutations (args self))
        then _generate_permutations self start_count limit sigint fs
        else _generate_combinations self start_count limit sigint fs in
      match r with
      | Ok _ =>
          (match fs !! session_file self with
           | Some _ => delete (session_file self) fs
           | None => fs
           end, Ok tt)
      | _ => (fs, r)
      end
  | Raise e => (fs, Raise e)
  | NotInt => (fs, NotInt)
  end.

End WordlistGenerator.

(** [main] after [parse_args].  Where the size is a float (a negative
    minimum length over a non-empty charset) the model follows the run no
    further and answers [NotInt]; the program itself goes on from there,
    opens the word list, and fails with [ValueError] when the enumerator
    is asked for its first item. *)
Definition main (a : Namespace) (sigint : option nat) (fs : FS)
    : FS * outcome unit :=
  if negb (truthy_str (permutations a))
     && (negb (bool_decide (is_Some (min_len a)))
         || negb (bool_decide (is_Some (max_len a))))
  then (fs, Raise (SystemExit 2))
  else
    match WordlistGenerator.__init__ a with
    | Ok generator => WordlistGenerator.run_generation generator sigint fs
    | Raise e => (fs, Raise e)
    | NotInt => (fs, NotInt)
    end.

(** How a run ends, in the words of the design: the three terminal states
    and the process exit code. *)
Inductive run_state : Type := Completed | Paused | Failed.

Definition terminal_state (r : outcome unit) : option run_state :=
  match r with
  | Ok _ => Some Completed
  | Raise (SystemExit 0) => Some Paused
  | Raise _ => Some Failed
  | NotInt => None
  end.

Definition exit_code (r : outcome unit) : option Z :=
  match r with
  | Ok _ => Some 0
  | Raise (SystemExit code) => Some code
  | Raise _ => Some 1
  | NotInt => None
  end.

(** The enumerator of a parsed command line: what [run_generation] hands
    to [_write_to_file]. *)
Definition enumerator (a : Namespace) : outcome (itertools.iter (list ascii)) :=
  if truthy_str (permutations a)
  then Ok (WordlistGenerator.permutations_generator a)
  else WordlistGenerator.combinations_generator a.

Definition range_args (lo hi : Z) (cs : string) : Namespace :=
  {| min_len := Some lo; max_len := Some hi; charset := cs;
     pattern := None; permutations := None; prefix := ""; suffix := "";
     output := "wordlist.txt"; limit := None; resume := false |}.


(** ** Notions of the design document, for comparison with the code *)

(** A usable space specification.  The three modes are told apart the way
    the code does it: a non-empty [permutations] string wins, then a
    non-empty [pattern], then the length range over the charset, whose
    bounds must be natural numbers with [minLen <= maxLen]. *)
Definition valid_spec (a : Namespace) : bool :=
  truthy_str (permutations a) || truthy_str (pattern a)
  || match min_len a, max_len a with
     | Some lo, Some hi => (0 <=? lo) && (lo <=? hi)
     | _, _ => false
     end.

(** The range mode proper: neither [permutations] nor [pattern] is set. *)
Definition range_mode (a : Namespace) : bool :=
  negb (truthy_str (permutations a)) && negb (truthy_str (pattern a)).

(** [sigma f lo k] is the sum of [f i] for [lo <= i < lo + k]. *)
Fixpoint sigma (f : Z -> Z) (lo : Z) (k : nat) : Z :=
  match k with
  | O => 0
  | S k' => sigma f lo k' + f (lo + Z.of_nat k')
  end.

(** The size of the range space: the sum of [n ^ L] for [lo <= L <= hi]. *)
Definition range_size (n lo hi : Z) : Z :=
  sigma (fun L => n ^ L) lo (Z.to_nat (hi - lo + 1)).

(** The digits of [i] on [len] positions in base [base], leftmost first:
    the rightmost position counts fastest. *)
Fixpoint counter_digits (base len i : nat) : list nat :=
  match len with
  | O => []
  | S len' => ((i / base ^ len') mod base)%nat :: counter_digits base len' i
  end.

(** The word a mixed-radix counter over [pool] shows at step [i]. *)
Definition counter_word (pool : list ascii) (len i : nat) : list ascii :=
  map (fun d => nth d pool "000"%char) (counter_digits (length pool) len i).

(** All the words of one length, in counting order. *)
Definition counter_block (pool : list ascii) (len : nat) : list (list ascii) :=
  map (counter_word pool len) (seq 0 (length pool ^ len)).

(** The text that a sequence of words makes in the output file. *)
Definition lines (a : Namespace) (ws : list (list ascii)) : string :=
  fold_right (fun w rest => WordlistGenerator.render a w +:+ rest) "" ws.

(** The 95 printable characters of ASCII, space to tilde. *)
Definition printable : string :=
  string_of_list_ascii (map ascii_of_nat (seq 32 95)).

(** The number that a decimal numeral denotes, continuing from [acc]. *)
Fixpoint uint_value (d : uint) (acc : Z) : Z :=
  match d with
  | Nil => acc
  | D0 d => uint_value d (10 * acc + 0)
  | D1 d => uint_value d (10 * acc + 1)
  | D2 d => uint_value d (10 * acc + 2)
  | D3 d => uint_value d (10 * acc + 3)
  | D4 d => uint_value d (10 * acc + 4)
  | D5 d => uint_value d (10 * acc + 5)
  | D6 d => uint_value d (10 * acc + 6)
  | D7 d => uint_value d (10 * acc + 7)
  | D8 d => uint_value d (10 * acc + 8)
  | D9 d => uint_value d (10 * acc + 9)
  end.

(** What [open] leaves in the output file before the first write. *)
Definition opened (path : string) (append : bool) (fs : FS) : string :=
  if append then default "" (fs !! path) else "".

(** Command lines used as examples: the defaults of [argparse], with the
    permutations string set. *)
Definition permutations_args (lo hi : option Z) (s : string) : Namespace :=
  {| min_len := lo; max_len := hi; charset := lowercase;
     pattern := None; permutations := Some s; prefix := ""; suffix := "";
     output := "wordlist.txt"; limit := None; resume := false |}.

Definition with_limit (l : Z) (a : Namespace) : Namespace :=
  {| min_len := min_len a; max_len := max_len a; charset := charset a;
     pattern := pattern a; permutations := permutations a;
     prefix := prefix a; suffix := suffix a; output := output a;
     limit := Some l; resume := resume a |}.

Definition with_resume (a : Namespace) : Namespace :=
  {| min_len := min_len a; max_len := max_len a; charset := charset a;
     pattern := pattern a; permutations := permutations a;
     prefix := prefix a; suffix := suffix a; output := output a;
     limit := limit a; resume := true |}.

(** The object that [__init__] builds for a command line of known size. *)
Definition generator_of (a : Namespace) (total : Z) : WordlistGenerator.t :=
  {| WordlistGenerator.args := a;
     WordlistGenerator.total_combinations := total;
     WordlistGenerator.session_file := output a +:+ ".session" |}.

(** Further example inputs. *)
Definition zero_one_generator : WordlistGenerator.t :=
  generator_of (range_args 1 2 "01") 6.

Definition resuming_generator : WordlistGenerator.t :=
  generator_of (with_resume (range_args 1 2 "01")) 6.

Definition printable_args : Namespace := range_args 20 20 printable.

Definition hundred_limit_three : Namespace :=
  with_limit 3 (range_args 2 2 digits).

Definition bracketed_args : Namespace :=
  {| min_len := Some 0; max_len := Some 1; charset := "ab";
     pattern := None; permutations := None;
     prefix := "<"; suffix := ">"; output := "wordlist.txt";
     limit := None; resume := false |}.

(** A string of white space only. *)
Fixpoint all_space (s : string) : bool :=
  match s with
  | EmptyString => true
  | String c s' => is_space c && all_space s'
  end.

(** The last multiple of 10000 above [count] and up to [final], if any:
    the count that the periodic save of the loop leaves behind. *)
Definition last_checkpoint (count final : Z) : option Z :=
  let m := final / 10000 * 10000 in
  if count <? m then Some m else None.

Definition without_resume (a : Namespace) : Namespace :=
  {| min_len := min_len a; max_len := max_len a; charset := charset a;
     pattern := pattern a; permutations := permutations a;
     prefix := prefix a; suffix := suffix a; output := output a;
     limit := limit a; resume := false |}.

(** A pattern character that names no class: it stands for itself. *)
Definition is_literal (c : ascii) : bool :=
  negb (Ascii.eqb c "@") && negb (Ascii.eqb c "%") && negb (Ascii.eqb c "^").

Definition pattern_args (p : string) : Namespace :=
  {| min_len := Some 1; max_len := Some 1; charset := lowercase;
     pattern := Some p; permutations := None; prefix := ""; suffix := "";
     output := "wordlist.txt"; limit := None; resume := false |}.

(** The second example of the usage text: four digits with a prefix. *)
Definition four_digit_args : Namespace :=
  {| min_len := Some 4; max_len := Some 4; charset := digits;
     pattern := None; permutations := None; prefix := "PIN"; suffix := "";
     output := "pins.txt"; limit := None; resume := false |}.

Definition four_digit_generator : WordlistGenerator.t :=
  generator_of four_digit_args 10000.

(** A count that the progress bar can work with: [tqdm] turns the total
    and the counts it is given into floats, adds and divides them.  Below
    [2 ^ 512] in absolute value they are far inside the range of a float,
    which ends near [2 ^ 1024]. *)
Definition float_ok (z : Z) : bool := Z.abs z <? 2 ^ 512.

(** A command line of size [total] whose run stays within the limits of
    the interpreter: the size and the limit, if there is one, are within
    the float range (so that lines 82-84 can print them with thousands
    separators and the progress bar can be set up for the smaller). *)
Definition within_limits (a : Namespace) (total : Z) : bool :=
  float_ok total && float_ok (default 0 (limit a)).

(** How often a character occurs in a pattern. *)
Definition occurrences (c : ascii) (p : string) : Z :=
  Z.of_nat (count_occ ascii_dec (chars p) c).

(** * Properties *)

(** ** Counting the enumerations *)

Section Counting.
Context {A : Type}.
Implicit Types (pool l : list A) (pools : list (list A)).

Lemma length_flat_map_const {B : Type} (f : A -> list B) (k : nat) l :
  (forall x, length (f x) = k) ->
  length (flat_map f l) = (length l * k)%nat.
Proof.
  intros Hf. induction l as [|x l IH]; simpl; [reflexivity|].
  rewrite length_app, Hf, IH. reflexivity.
Qed.

Lemma length_product_cons pool pools :
  length (itertools.product (pool :: pools))
  = (length pool * length (itertools.product pools))%nat.
Proof.
  simpl. apply length_flat_map_const. intros x. apply length_map.
Qed.

Lemma length_product_repeat pool (n : nat) :
  length (itertools.product (repeat pool n)) = (length pool ^ n)%nat.
Proof.
  induction n as [|n IH]; [reflexivity|].
  change (repeat pool (S n)) with (pool :: repeat pool n).
  rewrite length_product_cons, IH. reflexivity.
Qed.

Lemma length_selections l : length (itertools.selections l) = length l.
Proof.
  induction l as [|x l IH]; simpl; [reflexivity|].
  rewrite length_map, IH. reflexivity.
Qed.

Lemma selections_rest l x r :
  In (x, r) (itertools.selections l) -> S (length r) = length l.
Proof.
  revert x r. induction l as [|y l IH]; simpl; intros x r H; [contradiction|].
  destruct H as [H|H].
  - inversion H; subst. reflexivity.
  - apply in_map_iff in H. destruct H as [[x' r'] [E Hin]].
    simpl in E. inversion E; subst. simpl. f_equal. eapply IH, Hin.
Qed.

Lemma length_flat_map_In {B C : Type} (f : B -> list C) (k : nat) (l : list B) :
  (forall x, In x l -> length (f x) = k) ->
  length (flat_map f l) = (length l * k)%nat.
Proof.
  induction l as [|x l IH]; simpl; intros Hf; [reflexivity|].
  rewrite length_app, Hf, IH by auto. reflexivity.
Qed.

Lemma length_permutations_of_length (n : nat) l :
  length l = n ->
  length (itertools.permutations_of_length n l) = fact n.
Proof.
  revert l. induction n as [|n IH]; intros l Hl; [reflexivity|].
  simpl itertools.permutations_of_length.
  rewrite (length_flat_map_In _ (fact n)).
  - rewrite length_selections, Hl. reflexivity.
  - intros [x r] Hin. simpl. rewrite length_map. apply IH.
    apply selections_rest in Hin. lia.
Qed.

(** [permutations] yields [len(l)!] arrangements, duplicates included. *)
Lemma length_permutations l :
  length (itertools.permutations l) = fact (length l).
Proof. apply length_permutations_of_length. reflexivity. Qed.

(** A chain over non-negative lengths never raises, and its size is the
    running total that [py_sum] accumulates. *)
Lemma chain_products_nonneg pool (lens : list Z) :
  Forall (fun r => 0 <= r) lens ->
  itertools.at_end (itertools.chain_products pool lens) = Ok tt
  /\ forall acc,
       py_sum_from acc (fun i => py_pow (Z.of_nat (length pool)) i) lens
       = Ok (acc + Z.of_nat (length (itertools.items
                                       (itertools.chain_products pool lens)))).
Proof.
  induction 1 as [|r lens Hr _ [IHe IHs]]; simpl.
  - split; [reflexivity|]. intros acc. f_equal. lia.
  - unfold itertools.product_repeat, py_pow.
    destruct (Z.ltb_spec r 0) as [?|_]; [lia|]. simpl.
    split; [exact IHe|]. intros acc. rewrite IHs. f_equal.
    rewrite length_app, length_product_repeat.
    rewrite Nat2Z.inj_add, Nat2Z.inj_pow, Z2Nat.id by lia. lia.
Qed.

End Counting.

(** ** The size agrees with the enumeration *)

Lemma py_range_lower (lo hi : Z) : Forall (fun r => lo <= r) (py_range lo hi).
Proof.
  unfold py_range. apply List.Forall_forall. intros r Hr.
  apply in_map_iff in Hr. destruct Hr as [i [<- _]]. lia.
Qed.

Lemma pattern_count (cs : list ascii) (acc : Z) :
  fold_left (fun count c => count * Z.of_nat (length (CHARSET_MAP_get c))) cs acc
  = acc * Z.of_nat (length (itertools.product (map CHARSET_MAP_get cs))).
Proof.
  revert acc. induction cs as [|c cs IH]; intros acc.
  - simpl. lia.
  - cbn [fold_left map]. rewrite IH, length_product_cons. lia.
Qed.

(** For a usable specification the size is computed, the enumerator is
    built and never raises, and the two agree. *)
Lemma enumerator_size (a : Namespace) :
  valid_spec a = true ->
  exists ws,
    enumerator a = Ok (itertools.Iter ws (Ok tt))
    /\ WordlistGenerator._estimate_combinations a = Ok (Z.of_nat (length ws)).
Proof.
  unfold valid_spec, enumerator, WordlistGenerator._estimate_combinations,
    WordlistGenerator.combinations_generator,
    WordlistGenerator.permutations_generator.
  intros Hv.
  destruct (truthy_str (permutations a)); [eauto|].
  destruct (truthy_str (pattern a)).
  - eexists. split; [reflexivity|]. rewrite pattern_count. f_equal. lia.
  - simpl in Hv.
    destruct (min_len a) as [lo|]; [|discriminate].
    destruct (max_len a) as [hi|]; [|discriminate].
    apply andb_true_iff in Hv. destruct Hv as [Hlo _]. apply Z.leb_le in Hlo.
    destruct (chain_products_nonneg (chars (charset a)) (py_range lo (hi + 1)))
      as [He Hs].
    { eapply Forall_impl; [apply py_range_lower|]. simpl. intros; lia. }
    exists (itertools.items
              (itertools.chain_products (chars (charset a)) (py_range lo (hi + 1)))).
    split.
    + f_equal. rewrite <- He.
      destruct (itertools.chain_products _ _); reflexivity.
    + unfold py_sum. rewrite Hs. f_equal.
Qed.

(** ** The order of the range enumeration *)

Lemma counter_digits_shift (base len i k : nat) :
  counter_digits base len (i + k * base ^ len) = counter_digits base len i.
Proof.
  revert k. induction len as [|len IH]; intros k; [reflexivity|].
  cbn [counter_digits]. f_equal.
  - destruct base as [|b].
    + rewrite Nat.pow_0_l by discriminate. rewrite Nat.mul_0_r, Nat.add_0_r.
      reflexivity.
    + assert (Hnz : (S b ^ len <> 0)%nat) by (apply Nat.pow_nonzero; discriminate).
      replace (i + k * S b ^ S len)%nat with (i + (k * S b) * S b ^ len)%nat
        by (cbn [Nat.pow]; lia).
      rewrite Nat.div_add by exact Hnz.
      apply Nat.Div0.mod_add.
  - replace (i + k * base ^ S len)%nat with (i + (k * base) * base ^ len)%nat
      by (cbn [Nat.pow]; lia).
    apply IH.
Qed.

Lemma seq_from (s m : nat) : seq s m = map (fun r => (s + r)%nat) (seq 0 m).
Proof.
  revert s. induction m as [|m IH]; intros s; [reflexivity|].
  rewrite !seq_S, map_app, <- IH. reflexivity.
Qed.

Lemma seq_blocks (n m : nat) :
  seq 0 (n * m)
  = flat_map (fun q => map (fun r => (q * m + r)%nat) (seq 0 m)) (seq 0 n).
Proof.
  induction n as [|n IH]; [reflexivity|].
  rewrite seq_S, flat_map_app. simpl flat_map. rewrite app_nil_r, <- IH.
  replace (S n * m)%nat with (n * m + m)%nat by lia.
  rewrite seq_app. f_equal. apply seq_from.
Qed.

Lemma map_nth_seq (pool : list ascii) (d : ascii) :
  pool = map (fun q => nth q pool d) (seq 0 (length pool)).
Proof.
  apply (nth_ext _ _ d ((fun q => nth q pool d) O)).
  - rewrite length_map, length_seq. reflexivity.
  - intros i Hi.
    rewrite (map_nth (fun q => nth q pool d)), seq_nth by exact Hi. reflexivity.
Qed.

Lemma map_flat_map {X Y W : Type} (g : Y -> W) (f : X -> list Y) (l : list X) :
  map g (flat_map f l) = flat_map (fun x => map g (f x)) l.
Proof.
  induction l as [|x l IH]; simpl; [reflexivity|].
  rewrite map_app, IH. reflexivity.
Qed.

Lemma flat_map_map_in {X Y W : Type} (g : X -> Y) (f : Y -> list W) (l : list X) :
  flat_map f (map g l) = flat_map (fun x => f (g x)) l.
Proof.
  induction l as [|x l IH]; simpl; [reflexivity|]. rewrite IH. reflexivity.
Qed.

Lemma flat_map_ext_In {X Y : Type} (f g : X -> list Y) (l : list X) :
  (forall x, In x l -> f x = g x) -> flat_map f l = flat_map g l.
Proof.
  induction l as [|x l IH]; simpl; intros H; [reflexivity|].
  rewrite H, IH by auto. reflexivity.
Qed.

(** [product(pool, repeat=len)] counts through the words of that length:
    item [i] shows the digits of [i] in base [len(pool)]. *)
Lemma product_repeat_counter (pool : list ascii) (len : nat) :
  itertools.product (repeat pool len) = counter_block pool len.
Proof.
  induction len as [|len IH]; [reflexivity|].
  change (repeat pool (S len)) with (pool :: repeat pool len).
  cbn [itertools.product]. rewrite IH. unfold counter_block.
  cbn [Nat.pow]. rewrite seq_blocks, map_flat_map.
  rewrite (map_nth_seq pool "000"%char) at 1.
  rewrite flat_map_map_in.
  apply flat_map_ext_In. intros q Hq. apply in_seq in Hq.
  rewrite !map_map. apply map_ext_in. intros r Hr. apply in_seq in Hr.
  unfold counter_word. cbn [counter_digits map].
  set (m := (length pool ^ len)%nat) in *.
  assert (Hm : (m <> 0)%nat) by lia.
  f_equal.
  - rewrite Nat.div_add_l by exact Hm.
    rewrite (Nat.div_small r m), Nat.add_0_r by lia.
    rewrite Nat.mod_small by lia. reflexivity.
  - replace (q * m + r)%nat with (r + q * m)%nat by lia.
    unfold m. rewrite counter_digits_shift. reflexivity.
Qed.

Lemma chain_products_blocks (pool : list ascii) (ns : list nat) :
  itertools.chain_products pool (map Z.of_nat ns)
  = itertools.Iter (flat_map (counter_block pool) ns) (Ok tt).
Proof.
  induction ns as [|n ns IH]; [reflexivity|].
  cbn [map itertools.chain_products flat_map].
  unfold itertools.product_repeat.
  destruct (Z.ltb_spec (Z.of_nat n) 0) as [?|_]; [lia|].
  rewrite IH, Nat2Z.id, product_repeat_counter. reflexivity.
Qed.

Lemma py_range_nat (lo hi : Z) :
  0 <= lo ->
  py_range lo hi = map Z.of_nat (seq (Z.to_nat lo) (Z.to_nat (hi - lo))).
Proof.
  intros Hlo. unfold py_range.
  rewrite (seq_from (Z.to_nat lo)), map_map.
  apply map_ext. intros i. lia.
Qed.

(** ** The size of the range space *)

Lemma py_sum_from_app (f : Z -> outcome Z) (l1 l2 : list Z) (acc : Z) :
  py_sum_from acc f (l1 ++ l2)
  = (t ← py_sum_from acc f l1; py_sum_from t f l2).
Proof.
  revert acc. induction l1 as [|i l1 IH]; intros acc; [reflexivity|].
  cbn [app py_sum_from]. destruct (f i) as [t| |]; [|reflexivity..].
  apply IH.
Qed.

Lemma py_sum_sigma (n lo : Z) (k : nat) (acc : Z) :
  0 <= lo ->
  py_sum_from acc (fun i => py_pow n i)
              (map (fun i => lo + Z.of_nat i) (seq 0 k))
  = Ok (acc + sigma (fun L => n ^ L) lo k).
Proof.
  intros Hlo. revert acc. induction k as [|k IH]; intros acc.
  - simpl. f_equal. lia.
  - rewrite seq_S, map_app, py_sum_from_app, IH.
    cbn [map py_sum_from mbind outcome_bind]. unfold py_pow.
    destruct (Z.ltb_spec (lo + Z.of_nat (0 + k)) 0) as [?|_]; [lia|].
    cbn [sigma mbind outcome_bind Nat.add]. f_equal. lia.
Qed.

(** The geometric sum in closed form. *)
Lemma sigma_geometric (n lo : Z) (k : nat) :
  0 <= lo ->
  (n - 1) * sigma (fun L => n ^ L) lo k = n ^ (lo + Z.of_nat k) - n ^ lo.
Proof.
  intros Hlo. induction k as [|k IH].
  - simpl. rewrite Z.add_0_r. lia.
  - cbn [sigma]. rewrite Z.mul_add_distr_l, IH.
    replace (lo + Z.of_nat (S k)) with (Z.succ (lo + Z.of_nat k)) by lia.
    rewrite Z.pow_succ_r by lia. lia.
Qed.

(** ** Decimal numerals: printing then parsing *)

(** Induction on a numeral, one case per leading digit. *)
Ltac numeral_induction d IH :=
  induction d as [|d IH|d IH|d IH|d IH|d IH|d IH|d IH|d IH|d IH|d IH].

Lemma parse_digits_uint (d : uint) (acc : Z) (prev : bool) :
  d <> Nil \/ prev = true ->
  parse_digits (NilEmpty.string_of_uint d) acc prev = Some (uint_value d acc).
Proof.
  revert acc prev.
  numeral_induction d IH; intros acc prev H;
    [ destruct H as [H|H]; [congruence|subst; reflexivity]
    | cbn [NilEmpty.string_of_uint parse_digits uint_value];
      apply IH; right; reflexivity .. ].
Qed.

Lemma uint_value_pos (d : uint) (p : positive) :
  uint_value d (Zpos p) = Zpos (Pos.of_uint_acc d p).
Proof.
  revert p.
  numeral_induction d IH; intros p; [reflexivity|..];
    cbn [uint_value Pos.of_uint_acc]; rewrite <- IH; f_equal; lia.
Qed.

Lemma uint_value_0 (d : uint) : uint_value d 0 = Z.of_N (Pos.of_uint d).
Proof.
  numeral_induction d IH; [reflexivity | exact IH | ..];
    cbn [uint_value Pos.of_uint Z.of_N]; rewrite <- uint_value_pos; f_equal.
Qed.

Lemma lstrip_uint (d : uint) :
  lstrip (NilEmpty.string_of_uint d) = NilEmpty.string_of_uint d.
Proof. destruct d; reflexivity. Qed.

Lemma rstrip_uint (d : uint) :
  rstrip (NilEmpty.string_of_uint d) = NilEmpty.string_of_uint d.
Proof.
  numeral_induction d IH; [reflexivity|..];
    cbn [NilEmpty.string_of_uint rstrip]; rewrite IH;
    destruct (NilEmpty.string_of_uint d); reflexivity.
Qed.

Lemma py_strip_uint (d : uint) :
  py_strip (NilEmpty.string_of_uint d) = NilEmpty.string_of_uint d.
Proof. unfold py_strip. rewrite lstrip_uint. apply rstrip_uint. Qed.

Lemma count_digits_uint (d : uint) :
  count_digits (NilEmpty.string_of_uint d) = Z.of_nat (nb_digits d).
Proof.
  numeral_induction d IH; [reflexivity|..];
    cbn [NilEmpty.string_of_uint nb_digits]; rewrite Nat2Z.inj_succ, <- IH;
    cbn [count_digits];
    match goal with
    | |- context [digit_val ?c] =>
        let v := eval vm_compute in (digit_val c) in
        change (digit_val c) with v
    end; lia.
Qed.

Lemma uint_value_acc (d : uint) (acc : Z) :
  uint_value d acc = acc * 10 ^ Z.of_nat (nb_digits d) + uint_value d 0.
Proof.
  revert acc.
  numeral_induction d IH; intros acc;
    [ cbn [uint_value nb_digits]; change (10 ^ Z.of_nat 0) with 1; lia
    | cbn [uint_value nb_digits];
      rewrite Nat2Z.inj_succ, Z.pow_succ_r by lia;
      rewrite (IH (10 * acc + _)), (IH (10 * 0 + _)); lia .. ].
Qed.

Lemma uint_value_nonneg (d : uint) (acc : Z) : 0 <= acc -> 0 <= uint_value d acc.
Proof.
  revert acc.
  numeral_induction d IH; intros acc Hacc;
    [ exact Hacc | cbn [uint_value]; apply IH; lia .. ].
Qed.

(** A numeral that does not start with a zero is at least the power of
    ten of its length. *)
Lemma uint_value_leading (d : uint) :
  d <> Nil -> nzhead d = d ->
  10 ^ (Z.of_nat (nb_digits d) - 1) <= uint_value d 0.
Proof.
  intros Hnil Hhead.
  destruct d as [|d|d|d|d|d|d|d|d|d|d];
    [ congruence
    | exfalso; exact (DecimalFacts.nzhead_nonzero _ _ Hhead)
    | cbn [uint_value nb_digits];
      rewrite uint_value_acc, Nat2Z.inj_succ;
      replace (Z.succ (Z.of_nat (nb_digits d)) - 1)
        with (Z.of_nat (nb_digits d)) by lia;
      assert (0 <= uint_value d 0) by (apply uint_value_nonneg; lia);
      assert (0 < 10 ^ Z.of_nat (nb_digits d)) by (apply Z.pow_pos_nonneg; lia);
      nia .. ].
Qed.

(** The numeral of a positive number below [10 ^ n] has at most [n]
    digits. *)
Lemma nb_digits_to_uint (p : positive) (n : Z) :
  0 <= n -> Zpos p < 10 ^ n -> Z.of_nat (nb_digits (Pos.to_uint p)) <= n.
Proof.
  intros Hn Hp.
  assert (Hnil := DecimalPos.Unsigned.to_uint_nonnil p).
  assert (Hzero := DecimalPos.Unsigned.to_uint_nonzero p).
  assert (Hnorm : unorm (Pos.to_uint p) = Pos.to_uint p).
  { rewrite <- DecimalPos.Unsigned.to_of, DecimalPos.Unsigned.of_to.
    reflexivity. }
  assert (Hhead : nzhead (Pos.to_uint p) = Pos.to_uint p).
  { rewrite <- DecimalFacts.unorm_nzhead; [exact Hnorm|].
    intros E. apply DecimalFacts.unorm_0 in E. congruence. }
  assert (Hlow := uint_value_leading _ Hnil Hhead).
  rewrite uint_value_0, DecimalPos.Unsigned.of_to in Hlow.
  cbn [Z.of_N] in Hlow.
  destruct (Z.le_gt_cases (Z.of_nat (nb_digits (Pos.to_uint p))) n) as [?|Hgt];
    [assumption|exfalso].
  assert (10 ^ n <= 10 ^ (Z.of_nat (nb_digits (Pos.to_uint p)) - 1))
    by (apply Z.pow_le_mono_r; lia).
  lia.
Qed.

Lemma py_int_uint (d : uint) :
  d <> Nil -> Z.of_nat (nb_digits d) <= int_max_str_digits ->
  py_int (NilEmpty.string_of_uint d) = Some (Z.of_N (Pos.of_uint d)).
Proof.
  intros Hd Hlen. unfold py_int. rewrite py_strip_uint, count_digits_uint.
  destruct (Z.ltb_spec int_max_str_digits (Z.of_nat (nb_digits d))); [lia|].
  rewrite <- uint_value_0.
  rewrite <- (parse_digits_uint d 0 false) by (left; exact Hd).
  destruct d; reflexivity.
Qed.

Lemma uint_value_upper (d : uint) : uint_value d 0 < 10 ^ Z.of_nat (nb_digits d).
Proof.
  numeral_induction d IH;
    [ vm_compute; reflexivity
    | cbn [uint_value nb_digits];
      rewrite uint_value_acc, Nat2Z.inj_succ, Z.pow_succ_r by lia;
      assert (0 < 10 ^ Z.of_nat (nb_digits d)) by (apply Z.pow_pos_nonneg; lia);
      nia .. ].
Qed.

(** Few enough digits: below [10 ^ 4300] in absolute value. *)
Lemma str_ok_lt (z : Z) : str_ok z = true <-> Z.abs z < 10 ^ int_max_str_digits.
Proof.
  unfold str_ok. rewrite Z.leb_le.
  assert (Hn : 0 <= int_max_str_digits) by (vm_compute; discriminate).
  assert (Hp : forall p, Z.of_nat (nb_digits (Pos.to_uint p)) <= int_max_str_digits
                         <-> Zpos p < 10 ^ int_max_str_digits).
  { intros p. split.
    - intros Hlen.
      assert (Hup := uint_value_upper (Pos.to_uint p)).
      rewrite uint_value_0, DecimalPos.Unsigned.of_to in Hup.
      cbn [Z.of_N] in Hup.
      assert (10 ^ Z.of_nat (nb_digits (Pos.to_uint p))
              <= 10 ^ int_max_str_digits)
        by (apply Z.pow_le_mono_r; lia).
      lia.
    - apply nb_digits_to_uint. exact Hn. }
  destruct z as [|p|p]; cbn [decimal_digits Z.abs]; [|apply Hp..].
  split; intros _; [|vm_compute; discriminate].
  apply Z.pow_pos_nonneg; [lia|exact Hn].
Qed.

Lemma str_ok_false (z : Z) :
  10 ^ int_max_str_digits <= Z.abs z -> str_ok z = false.
Proof.
  intros H. apply not_true_is_false. rewrite str_ok_lt. lia.
Qed.

(** The largest number that is written out, and the first that is not. *)
Lemma digit_limit (B : Z) :
  B = 10 ^ int_max_str_digits ->
  str_ok (B - 1) = true /\ str_ok B = false /\ str_ok (- B) = false.
Proof.
  intros ->.
  assert (H : 0 < 10 ^ int_max_str_digits)
    by (apply Z.pow_pos_nonneg; [lia | vm_compute; discriminate]).
  split; [apply str_ok_lt|split; apply not_true_is_false; rewrite str_ok_lt];
    revert H; generalize (10 ^ int_max_str_digits); lia.
Qed.

(** [int(str(c))] is [c] for a count [c] that can be written out;
    stripping first changes nothing. *)
Lemma py_int_str (c : Z) :
  0 <= c -> str_ok c = true ->
  numeral c = py_strip (numeral c) /\ py_int (numeral c) = Some c.
Proof.
  intros Hc Hok. destruct c as [|p|p]; [split; reflexivity| |lia].
  apply str_ok_lt in Hok. cbn [Z.abs] in Hok.
  unfold numeral. cbn [Z.to_int NilZero.string_of_int].
  assert (Hnil := DecimalPos.Unsigned.to_uint_nonnil p).
  assert (E : NilZero.string_of_uint (Pos.to_uint p)
              = NilEmpty.string_of_uint (Pos.to_uint p)).
  { unfold NilZero.string_of_uint. destruct (Pos.to_uint p); congruence. }
  rewrite E. split.
  - symmetry. apply py_strip_uint.
  - rewrite py_int_uint;
      [ rewrite DecimalPos.Unsigned.of_to; reflexivity
      | exact Hnil
      | apply nb_digits_to_uint; [unfold int_max_str_digits; lia | exact Hok] ].
Qed.

(** ** Writing the words *)

Lemma append_nil_r (s : string) : s +:+ "" = s.
Proof.
  induction s as [|c s IH]; [reflexivity|].
  change (String c (s +:+ "") = String c s). f_equal. exact IH.
Qed.

Lemma append_assoc (s1 s2 s3 : string) : (s1 +:+ s2) +:+ s3 = s1 +:+ s2 +:+ s3.
Proof.
  induction s1 as [|c s1 IH]; [reflexivity|].
  change (String c ((s1 +:+ s2) +:+ s3) = String c (s1 +:+ s2 +:+ s3)).
  f_equal. exact IH.
Qed.

Lemma length_append (s1 s2 : string) :
  String.length (s1 +:+ s2) = (String.length s1 + String.length s2)%nat.
Proof.
  induction s1 as [|c s1 IH]; [reflexivity|].
  change (S (String.length (s1 +:+ s2))
          = S (String.length s1 + String.length s2)).
  f_equal. exact IH.
Qed.

(** The session record never shares its path with the word list. *)
Lemma session_file_ne (o : string) : o +:+ ".session" <> o.
Proof.
  intros E. apply (f_equal String.length) in E.
  rewrite length_append in E. simpl in E. lia.
Qed.

Lemma lines_app (a : Namespace) (ws1 ws2 : list (list ascii)) :
  lines a (ws1 ++ ws2) = lines a ws1 +:+ lines a ws2.
Proof.
  induction ws1 as [|w ws1 IH]; simpl; [reflexivity|].
  rewrite IH, append_assoc. reflexivity.
Qed.

(** Within the limits of the interpreter. *)

Lemma str_ok_between (lo hi c : Z) :
  str_ok lo = true -> str_ok hi = true -> lo <= c <= hi -> str_ok c = true.
Proof.
  rewrite !str_ok_lt. generalize (10 ^ int_max_str_digits). lia.
Qed.

Lemma str_ok_0 : str_ok 0 = true.
Proof. vm_compute. reflexivity. Qed.

Lemma float_ok_lt (z : Z) : float_ok z = true <-> Z.abs z < 2 ^ 512.
Proof. unfold float_ok. apply Z.ltb_lt. Qed.

Lemma float_ok_str_ok (z : Z) : float_ok z = true -> str_ok z = true.
Proof.
  rewrite float_ok_lt, str_ok_lt.
  assert (H : 2 ^ 512 < 10 ^ int_max_str_digits).
  { apply Z.lt_le_trans with (10 ^ 512);
      [ apply Z.pow_lt_mono_l; lia
      | apply Z.pow_le_mono_r; [lia | vm_compute; discriminate] ]. }
  revert H. generalize (2 ^ 512) (10 ^ int_max_str_digits). lia.
Qed.

Lemma float_ok_between (lo hi c : Z) :
  float_ok lo = true -> float_ok hi = true -> lo <= c <= hi ->
  float_ok c = true.
Proof.
  rewrite !float_ok_lt. generalize (2 ^ 512). lia.
Qed.

Lemma float_ok_maxsize (c : Z) : 0 <= c <= sys_maxsize -> float_ok c = true.
Proof.
  intros Hc. apply float_ok_lt.
  assert (H : sys_maxsize < 2 ^ 512)
    by (apply Z.ltb_lt; vm_compute; reflexivity).
  revert H Hc. generalize sys_maxsize (2 ^ 512). lia.
Qed.

Lemma str_ok_maxsize (c : Z) : 0 <= c <= sys_maxsize -> str_ok c = true.
Proof. intros Hc. apply float_ok_str_ok, float_ok_maxsize, Hc. Qed.

Lemma effective_limit_cases (user_limit : option Z) (total : Z) :
  WordlistGenerator.effective_limit user_limit total = total
  \/ WordlistGenerator.effective_limit user_limit total = default 0 user_limit.
Proof.
  unfold WordlistGenerator.effective_limit.
  destruct (truthy_int user_limit && (default 0 user_limit <? total)); auto.
Qed.

(** Within the limits, the banner is printed and the effective limit is
    in range. *)
Lemma within_limits_inv (a : Namespace) (total : Z) :
  within_limits a total = true ->
  WordlistGenerator.announce total (limit a) = Ok tt
  /\ float_ok (WordlistGenerator.effective_limit (limit a) total) = true
  /\ str_ok (WordlistGenerator.effective_limit (limit a) total) = true.
Proof.
  unfold within_limits. intros H. apply andb_true_iff in H.
  destruct H as [Ht Hl].
  assert (Hf : float_ok (WordlistGenerator.effective_limit (limit a) total)
               = true).
  { destruct (effective_limit_cases (limit a) total) as [-> | ->]; assumption. }
  split; [|split; [exact Hf | apply float_ok_str_ok, Hf]].
  unfold WordlistGenerator.announce, print_thousands.
  rewrite (float_ok_str_ok _ Ht), (float_ok_str_ok _ Hl).
  cbn [mbind outcome_bind]. destruct (truthy_int (limit a)); reflexivity.
Qed.

Section Writing.
Variable self : WordlistGenerator.t.
Hypothesis Hne : WordlistGenerator.session_file self <> output (WordlistGenerator.args self).

Local Abbreviation a := (WordlistGenerator.args self).
Local Abbreviation out := (output (WordlistGenerator.args self)).

(** A count that can be written out is saved. *)
Lemma save_progress_ok (count : Z) (fs : FS) :
  str_ok count = true ->
  WordlistGenerator._save_progress self count fs
  = (<[WordlistGenerator.session_file self := numeral count]> fs, Ok tt).
Proof.
  intros Hok. unfold WordlistGenerator._save_progress, py_str.
  rewrite Hok, insert_insert_eq. reflexivity.
Qed.

Lemma lookup_save_progress (count : Z) (fs : FS) :
  (WordlistGenerator._save_progress self count fs).1 !! out = fs !! out.
Proof.
  unfold WordlistGenerator._save_progress.
  destruct (py_str count); cbn [fst];
    rewrite ?lookup_insert_ne by exact Hne; reflexivity.
Qed.

(** Left alone, the loop appends the next [limit - count] words, or all
    that are left, and returns. *)
Lemma write_loop_quiet (limit : Z) (ws : list (list ascii)) :
  str_ok limit = true ->
  forall (count : Z) (fs : FS) (cur : string),
    str_ok count = true ->
    fs !! out = Some cur ->
    exists fs',
      WordlistGenerator.write_loop self limit ws (Ok tt) count None fs
      = (fs', Ok tt)
      /\ fs' !! out
         = Some (cur +:+ lines a (take (Z.to_nat (limit - count)) ws)).
Proof.
  intros Hlim.
  induction ws as [|w ws IH]; intros count fs cur Hcount Hcur.
  - exists fs. split; [reflexivity|].
    rewrite take_nil. simpl. rewrite append_nil_r. exact Hcur.
  - cbn [WordlistGenerator.write_loop].
    destruct (Z.leb_spec limit count) as [Hle|Hlt].
    + exists fs. split; [reflexivity|].
      replace (Z.to_nat (limit - count)) with O by lia.
      simpl. rewrite append_nil_r. exact Hcur.
    + assert (Hnext : str_ok (count + 1) = true)
        by (apply (str_ok_between count limit); [assumption..|lia]).
      set (fs1 := WordlistGenerator.fwrite _ _ fs).
      assert (H1 : fs1 !! out
                   = Some (cur +:+ WordlistGenerator.render a w)).
      { unfold fs1, WordlistGenerator.fwrite. fold out.
        rewrite lookup_insert_eq, Hcur. reflexivity. }
      assert (Hsave := lookup_save_progress (count + 1) fs1).
      rewrite (save_progress_ok _ _ Hnext) in Hsave |- *.
      cbn [fst] in Hsave.
      set (fs2 := <[WordlistGenerator.session_file self := _]> fs1) in *.
      assert (Hstep : exists fs3,
                (if (count + 1) mod 10000 =? 0 then (fs2, Ok tt)
                 else (fs1, Ok tt)) = (fs3, Ok tt)
                /\ fs3 !! out = Some (cur +:+ WordlistGenerator.render a w)).
      { destruct (_ =? 0); eexists; (split; [reflexivity|]);
          [rewrite Hsave|]; exact H1. }
      destruct Hstep as [fs3 [-> H3]].
      destruct (IH (count + 1) fs3 _ Hnext H3) as [fs' [Hrun Hout]].
      exists fs'. split; [exact Hrun|].
      rewrite Hout.
      replace (Z.to_nat (limit - count))
        with (S (Z.to_nat (limit - (count + 1)))) by lia.
      simpl. rewrite append_assoc. reflexivity.
Qed.

Lemma lookup_open_output (append : bool) (fs : FS) :
  WordlistGenerator.open_output out append fs !! out
  = Some (opened out append fs).
Proof.
  unfold WordlistGenerator.open_output, opened.
  destruct append; [|apply lookup_insert_eq].
  destruct (fs !! out) eqn:E; [rewrite E; reflexivity|apply lookup_insert_eq].
Qed.

(** What [islice] leaves of an enumerator that does not raise, for an
    offset that it accepts. *)
Lemma islice_consume_quiet (ws : list (list ascii)) (n : Z) :
  0 <= n <= sys_maxsize ->
  itertools.islice_consume n (itertools.Iter ws (Ok tt))
  = Ok (itertools.Iter (drop (Z.to_nat n) ws) (Ok tt)).
Proof.
  intros Hn. unfold itertools.islice_consume.
  cbn [itertools.items itertools.at_end].
  destruct (Z.ltb_spec n 0); [lia|].
  destruct (Z.ltb_spec sys_maxsize n); [lia|]. cbn [orb].
  destruct (Z.ltb_spec (Z.of_nat (length ws)) n); [|reflexivity].
  cbn [mbind outcome_bind]. rewrite drop_ge by lia. reflexivity.
Qed.

(** [_write_to_file] on an enumerator that does not raise: the words
    from [start_count] up to [limit] are appended to what [open] left. *)
Lemma write_to_file_quiet (ws : list (list ascii)) (start_count limit : Z)
    (fs : FS) :
  0 <= start_count <= sys_maxsize ->
  str_ok limit = true ->
  exists fs',
    WordlistGenerator._write_to_file self (itertools.Iter ws (Ok tt))
      start_count limit None fs = (fs', Ok tt)
    /\ fs' !! out
       = Some (opened out (0 <? start_count) fs
               +:+ lines a (take (Z.to_nat (limit - start_count))
                                 (drop (Z.to_nat start_count) ws))).
Proof.
  intros Hs Hlim. unfold WordlistGenerator._write_to_file.
  fold out.
  assert (Hopen := lookup_open_output (0 <? start_count) fs).
  assert (Hstart := str_ok_maxsize _ Hs).
  destruct (Z.ltb_spec 0 start_count) as [Hpos|Hz].
  - rewrite islice_consume_quiet by exact Hs.
    cbn [itertools.items itertools.at_end].
    apply (write_loop_quiet limit _ Hlim start_count _ _ Hstart Hopen).
  - cbn [itertools.items itertools.at_end].
    replace (Z.to_nat start_count) with O by lia. rewrite drop_0.
    apply (write_loop_quiet limit ws Hlim start_count _ _ Hstart Hopen).
Qed.

(** A whole run that nothing interrupts ends normally, with the words
    written and the session record gone. *)
Lemma run_generation_quiet (ws : list (list ascii)) (fs : FS) :
  enumerator a = Ok (itertools.Iter ws (Ok tt)) ->
  within_limits a (WordlistGenerator.total_combinations self) = true ->
  0 <= WordlistGenerator._get_start_point self fs <= sys_maxsize ->
  let start_count := WordlistGenerator._get_start_point self fs in
  let limit := WordlistGenerator.effective_limit
                 (limit a) (WordlistGenerator.total_combinations self) in
  exists fs',
    WordlistGenerator.run_generation self None fs = (fs', Ok tt)
    /\ fs' !! out
       = Some (opened out (0 <? start_count) fs
               +:+ lines a (take (Z.to_nat (limit - start_count))
                                 (drop (Z.to_nat start_count) ws)))
    /\ fs' !! WordlistGenerator.session_file self = None.
Proof.
  intros Henum Hin Hs start_count limit.
  destruct (within_limits_inv _ _ Hin) as (Hann & _ & Hlim).
  destruct (write_to_file_quiet ws start_count limit fs Hs Hlim)
    as [fs1 [Hrun Hout]].
  assert (Hgen :
    (if truthy_str (permutations a)
     then WordlistGenerator._generate_permutations self start_count limit None fs
     else WordlistGenerator._generate_combinations self start_count limit None fs)
    = (fs1, Ok tt)).
  { unfold enumerator in Henum.
    unfold WordlistGenerator._generate_permutations,
      WordlistGenerator._generate_combinations. fold a.
    destruct (truthy_str (permutations a)).
    - assert (E : WordlistGenerator.permutations_generator a
                  = itertools.Iter ws (Ok tt)) by congruence.
      rewrite E. exact Hrun.
    - rewrite Henum. exact Hrun. }
  unfold WordlistGenerator.run_generation. fold a start_count limit.
  rewrite Hann, Hgen.
  destruct (fs1 !! WordlistGenerator.session_file self) eqn:E.
  - eexists. split; [reflexivity|]. split.
    + rewrite lookup_delete_ne by exact Hne. exact Hout.
    + apply lookup_delete_eq.
  - exists fs1. auto.
Qed.

End Writing.

(** ** Building the generator object *)

Lemma py_sum_ok_nonneg (n lo hi t : Z) :
  lo <= hi ->
  py_sum (fun i => py_pow n i) (py_range lo (hi + 1)) = Ok t ->
  0 <= lo.
Proof.
  intros Hle. unfold py_sum, py_range.
  destruct (Z.to_nat (hi + 1 - lo)) as [|k] eqn:E; [lia|].
  cbn [seq map py_sum_from].
  destruct (py_pow n (lo + Z.of_nat 0)) as [t0| |] eqn:Ep;
    [|cbn [mbind outcome_bind]; discriminate..].
  intros _. unfold py_pow in Ep.
  destruct (Z.ltb_spec (lo + Z.of_nat 0) 0); [|lia].
  destruct (n =? 0); discriminate.
Qed.

(** What a successful [__init__] tells about the command line. *)
Lemma init_inv (a : Namespace) (self : WordlistGenerator.t) :
  WordlistGenerator.__init__ a = Ok self ->
  self = generator_of a (WordlistGenerator.total_combinations self)
  /\ WordlistGenerator._estimate_combinations a
     = Ok (WordlistGenerator.total_combinations self)
  /\ valid_spec a = true
  /\ (exists lo hi, min_len a = Some lo /\ max_len a = Some hi /\ lo <= hi).
Proof.
  unfold WordlistGenerator.__init__. intros H.
  destruct (WordlistGenerator.validate_args a) as [w| |] eqn:Hv; [|discriminate..].
  cbn [mbind outcome_bind] in H.
  destruct (WordlistGenerator._estimate_combinations a) as [total| |] eqn:He;
    [|discriminate..].
  cbn [mbind outcome_bind] in H. injection H as <-.
  cbn [WordlistGenerator.total_combinations].
  unfold WordlistGenerator.validate_args in Hv.
  destruct (min_len a) as [lo|] eqn:Hlo; [|discriminate].
  destruct (max_len a) as [hi|] eqn:Hhi; [|discriminate].
  destruct (Z.ltb_spec hi lo) as [?|Hle]; [discriminate|].
  repeat split; [|eauto].
  unfold valid_spec. rewrite Hlo, Hhi.
  unfold WordlistGenerator._estimate_combinations in He.
  destruct (truthy_str (permutations a)); [reflexivity|].
  destruct (truthy_str (pattern a)); [reflexivity|].
  rewrite Hlo, Hhi in He. apply py_sum_ok_nonneg in He; [|exact Hle].
  cbn [orb]. apply andb_true_iff. split; [apply Z.leb_le|apply Z.leb_le]; lia.
Qed.

(** After [__init__], [main] goes on to [run_generation]. *)
Lemma main_runs (a : Namespace) (self : WordlistGenerator.t) (sigint : option nat)
    (fs : FS) :
  WordlistGenerator.__init__ a = Ok self ->
  main a sigint fs = WordlistGenerator.run_generation self sigint fs.
Proof.
  intros H. destruct (init_inv a self H) as (_ & _ & _ & lo & hi & Hlo & Hhi & _).
  unfold main. rewrite H, Hlo, Hhi.
  rewrite !bool_decide_eq_true_2 by eauto.
  rewrite andb_false_r. reflexivity.
Qed.

Lemma init_range (a : Namespace) (lo hi : Z) :
  range_mode a = true -> min_len a = Some lo -> max_len a = Some hi ->
  0 <= lo <= hi ->
  WordlistGenerator.__init__ a
  = Ok (generator_of a (range_size (Z.of_nat (length (chars (charset a)))) lo hi)).
Proof.
  unfold range_mode. intros Hm Hlo Hhi Hb.
  apply andb_true_iff in Hm. destruct Hm as [Hp Ht].
  apply negb_true_iff in Hp, Ht.
  unfold WordlistGenerator.__init__, WordlistGenerator.validate_args,
    WordlistGenerator._estimate_combinations.
  rewrite Hlo, Hhi, Hp, Ht.
  destruct (Z.ltb_spec hi lo) as [?|_]; [lia|].
  cbn [andb mbind outcome_bind app].
  unfold py_sum, py_range. rewrite py_sum_sigma by lia.
  cbn [mbind outcome_bind]. unfold generator_of, range_size.
  rewrite Z.add_0_l.
  replace (hi + 1 - lo) with (hi - lo + 1) by lia. reflexivity.
Qed.

Lemma sigma_first (f : Z -> Z) (lo : Z) (k : nat) :
  sigma f lo (S k) = f lo + sigma f (lo + 1) k.
Proof.
  induction k as [|k IH].
  - simpl. rewrite Z.add_0_r. lia.
  - change (sigma f lo (S (S k)))
      with (sigma f lo (S k) + f (lo + Z.of_nat (S k))).
    rewrite IH. cbn [sigma].
    replace (lo + 1 + Z.of_nat k) with (lo + Z.of_nat (S k)) by lia. lia.
Qed.

Lemma sigma_zero_pow (lo : Z) (k : nat) :
  0 < lo -> sigma (fun L => 0 ^ L) lo k = 0.
Proof.
  intros Hlo. induction k as [|k IH]; [reflexivity|].
  cbn [sigma]. rewrite IH, Z.pow_0_l by lia. reflexivity.
Qed.

(** ** The claims *)

(** C1 (the code departs from it).  Permutations of ["ab"] with no length
    arguments should report two words and emit ["ab"] then ["ba"]; the
    program instead stops in [validate_args], where [None > None] is a
    [TypeError], before it has computed a size or opened a file. *)
Theorem C1_permutations_without_lengths_raise (sigint : option nat) (fs : FS) :
  main (permutations_args None None "ab") sigint fs = (fs, Raise TypeError)
  /\ WordlistGenerator.validate_args (permutations_args None None "ab")
     = Raise TypeError.
Proof. split; reflexivity. Qed.

(** With both lengths on the command line the same request goes through:
    two words, ["ab"] then ["ba"]. *)
Lemma permutations_ab_with_lengths :
  WordlistGenerator._estimate_combinations (permutations_args (Some 0) (Some 0) "ab")
  = Ok 2
  /\ enumerator (permutations_args (Some 0) (Some 0) "ab")
     = Ok (itertools.Iter [chars "ab"; chars "ba"] (Ok tt))
  /\ fst (main (permutations_args (Some 0) (Some 0) "ab") None ∅) !! "wordlist.txt"
     = Some ("ab" +:+ newline +:+ "ba" +:+ newline).
Proof. repeat split; vm_compute; reflexivity. Qed.

Lemma effective_limit_supplied (l total : Z) :
  l <> 0 -> WordlistGenerator.effective_limit (Some l) total = Z.min l total.
Proof.
  intros Hl. unfold WordlistGenerator.effective_limit, truthy_int.
  destruct (Z.eqb_spec l 0) as [?|_]; [contradiction|].
  simpl. destruct (Z.ltb_spec l total); lia.
Qed.

Lemma effective_limit_absent (total : Z) :
  WordlistGenerator.effective_limit None total = total.
Proof. reflexivity. Qed.

(** C2 (the code departs from it).  A supplied limit of 0 should make the
    effective limit [min(0, totalSize) = 0]; the truth test on the limit
    takes 0 for no limit, so the effective limit is the whole size and a
    run with [--limit 0] writes every word. *)
Theorem C2_limit_zero_is_taken_for_no_limit :
  (forall total, WordlistGenerator.effective_limit (Some 0) total = total)
  /\ WordlistGenerator.effective_limit (Some 0) 6 <> Z.min 0 6
  /\ fst (main (with_limit 0 (range_args 1 2 "01")) None ∅) !! "wordlist.txt"
     = Some (lines (with_limit 0 (range_args 1 2 "01"))
                   (map chars ["0"; "1"; "00"; "01"; "10"; "11"])).
Proof.
  split; [reflexivity|]. split; [discriminate|]. vm_compute. reflexivity.
Qed.

Lemma range_enumerator (a : Namespace) (lo hi : Z) :
  range_mode a = true -> min_len a = Some lo -> max_len a = Some hi ->
  0 <= lo <= hi ->
  enumerator a
  = Ok (itertools.Iter
          (flat_map (counter_block (chars (charset a)))
                    (seq (Z.to_nat lo) (Z.to_nat (hi - lo + 1))))
          (Ok tt)).
Proof.
  unfold range_mode. intros Hm Hlo Hhi Hb.
  apply andb_true_iff in Hm. destruct Hm as [Hp Ht].
  apply negb_true_iff in Hp, Ht.
  unfold enumerator, WordlistGenerator.combinations_generator.
  rewrite Hp, Ht, Hlo, Hhi. f_equal.
  rewrite py_range_nat by lia.
  replace (hi + 1 - lo) with (hi - lo + 1) by lia.
  apply chain_products_blocks.
Qed.

(** C3.  In the range mode the words come by ascending length, and within
    a length as the successive states of a counter over the charset whose
    rightmost position counts fastest; for charset ["01"] and lengths 1
    to 2 that is 0, 1, 00, 01, 10, 11, six words in all. *)
Theorem C3_range_order (a : Namespace) (lo hi : Z) :
  range_mode a = true -> min_len a = Some lo -> max_len a = Some hi ->
  0 <= lo <= hi ->
  enumerator a
  = Ok (itertools.Iter
          (flat_map (counter_block (chars (charset a)))
                    (seq (Z.to_nat lo) (Z.to_nat (hi - lo + 1))))
          (Ok tt))
  /\ enumerator (range_args 1 2 "01")
     = Ok (itertools.Iter (map chars ["0"; "1"; "00"; "01"; "10"; "11"]) (Ok tt))
  /\ WordlistGenerator._estimate_combinations (range_args 1 2 "01") = Ok 6.
Proof.
  intros Hm Hlo Hhi Hb.
  split; [|split; reflexivity].
  apply range_enumerator; assumption.
Qed.

Lemma C3_range_order_witness :
  enumerator (range_args 1 2 "01")
  = Ok (itertools.Iter
          (flat_map (counter_block (chars "01")) (seq 1 2)) (Ok tt))
  /\ enumerator (range_args 1 2 "01")
     = Ok (itertools.Iter (map chars ["0"; "1"; "00"; "01"; "10"; "11"]) (Ok tt))
  /\ WordlistGenerator._estimate_combinations (range_args 1 2 "01") = Ok 6.
Proof.
  apply (C3_range_order (range_args 1 2 "01") 1 2); [reflexivity..|lia].
Defined.

(** C4.  For every usable space specification, in each of the three
    modes, the enumerator is a finite sequence that ends without raising
    and has exactly as many items as the computed size. *)
Theorem C4_enumerator_has_total_size (a : Namespace) :
  valid_spec a = true ->
  exists ws,
    enumerator a = Ok (itertools.Iter ws (Ok tt))
    /\ WordlistGenerator._estimate_combinations a = Ok (Z.of_nat (length ws)).
Proof. apply enumerator_size. Qed.

Lemma C4_enumerator_has_total_size_witness :
  valid_spec (range_args 1 2 "01") = true
  /\ exists ws,
       enumerator (range_args 1 2 "01") = Ok (itertools.Iter ws (Ok tt))
       /\ WordlistGenerator._estimate_combinations (range_args 1 2 "01")
          = Ok (Z.of_nat (length ws)).
Proof.
  split; [reflexivity|].
  apply (C4_enumerator_has_total_size (range_args 1 2 "01")). reflexivity.
Defined.

(** C5.  Skipping the first [n] words and then reading [m] gives what a
    fresh enumeration gives as its first [n + m] words with the first [n]
    discarded: a resumed pass with start [n] and limit [n + m] appends
    exactly those words, in that order.  The offset [n] is one that
    [islice] accepts (at most [sys.maxsize]) and the limit [n + m] one
    that the progress bar and the periodic save can work with. *)
Theorem C5_skip_ahead (self : WordlistGenerator.t) (total n m : Z) (fs : FS) :
  let a := WordlistGenerator.args self in
  valid_spec a = true ->
  WordlistGenerator.session_file self = output a +:+ ".session" ->
  WordlistGenerator._estimate_combinations a = Ok total ->
  0 <= n <= total -> 0 <= m ->
  n <= sys_maxsize -> float_ok (n + m) = true ->
  exists g fs_resumed fs_fresh,
    enumerator a = Ok g
    /\ WordlistGenerator._write_to_file self g n (n + m) None fs
       = (fs_resumed, Ok tt)
    /\ WordlistGenerator._write_to_file self g 0 (n + m) None fs
       = (fs_fresh, Ok tt)
    /\ fs_fresh !! output a
       = Some (lines a (take (Z.to_nat (n + m)) (itertools.items g)))
    /\ fs_resumed !! output a
       = Some (opened (output a) (0 <? n) fs
               +:+ lines a (drop (Z.to_nat n)
                                 (take (Z.to_nat (n + m)) (itertools.items g)))).
Proof.
  intros a Hv Hsess _ Hn Hm Hmax Hfloat.
  destruct (enumerator_size a Hv) as [ws [Hg _]].
  assert (Hne : WordlistGenerator.session_file self
                <> output (WordlistGenerator.args self)).
  { rewrite Hsess. apply session_file_ne. }
  assert (Hlim := float_ok_str_ok _ Hfloat).
  destruct (write_to_file_quiet self Hne ws n (n + m) fs) as [fs_r [Hr Hor]];
    [lia|exact Hlim|].
  destruct (write_to_file_quiet self Hne ws 0 (n + m) fs) as [fs_f [Hf Hof]];
    [lia|exact Hlim|].
  exists (itertools.Iter ws (Ok tt)), fs_r, fs_f.
  cbn [itertools.items].
  split; [exact Hg|]. split; [exact Hr|]. split; [exact Hf|]. split.
  - subst a. rewrite Hof. rewrite Z.sub_0_r. reflexivity.
  - subst a. rewrite Hor. do 2 f_equal.
    replace (n + m - n) with m by lia.
    rewrite take_drop_commute, Z2Nat.inj_add by lia. reflexivity.
Qed.

Lemma C5_skip_ahead_witness :
  exists g fs_resumed fs_fresh,
    enumerator (range_args 1 2 "01") = Ok g
    /\ WordlistGenerator._write_to_file zero_one_generator g 2 (2 + 3) None ∅
       = (fs_resumed, Ok tt)
    /\ WordlistGenerator._write_to_file zero_one_generator g 0 (2 + 3) None ∅
       = (fs_fresh, Ok tt)
    /\ fs_fresh !! "wordlist.txt"
       = Some (lines (range_args 1 2 "01")
                     (take (Z.to_nat (2 + 3)) (itertools.items g)))
    /\ fs_resumed !! "wordlist.txt"
       = Some (opened "wordlist.txt" (0 <? 2) ∅
               +:+ lines (range_args 1 2 "01")
                         (drop (Z.to_nat 2)
                               (take (Z.to_nat (2 + 3)) (itertools.items g)))).
Proof.
  apply (C5_skip_ahead zero_one_generator 6 2 3 ∅);
    [reflexivity | reflexivity | reflexivity | lia | lia
    | vm_compute; discriminate | vm_compute; reflexivity].
Defined.

(** C6.  The size of the range space is the exact sum of [|charset| ^ L]
    over [minLen <= L <= maxLen], in unbounded integers: for the 95
    printable characters at length 20 it is [95 ^ 20], beyond 128 bits,
    and not that number reduced modulo a machine word. *)
Theorem C6_exact_size (a : Namespace) (lo hi : Z) :
  let n := Z.of_nat (length (chars (charset a))) in
  range_mode a = true -> min_len a = Some lo -> max_len a = Some hi ->
  0 <= lo <= hi ->
  WordlistGenerator._estimate_combinations a = Ok (range_size n lo hi)
  /\ (n - 1) * range_size n lo hi = n ^ (hi + 1) - n ^ lo
  /\ WordlistGenerator._estimate_combinations (range_args 20 20 printable)
     = Ok 3584859224085422343574104404449462890625
  /\ 2 ^ 128 < 3584859224085422343574104404449462890625
  /\ 3584859224085422343574104404449462890625 mod 2 ^ 64
     <> 3584859224085422343574104404449462890625.
Proof.
  intros n Hm Hlo Hhi Hb.
  assert (Hi := init_range a lo hi Hm Hlo Hhi Hb).
  apply init_inv in Hi. destruct Hi as (_ & He & _).
  split; [exact He|]. split.
  - unfold range_size. rewrite sigma_geometric by lia.
    rewrite Z2Nat.id by lia. f_equal. f_equal. lia.
  - split; [vm_compute; reflexivity|]. split; [reflexivity|]. vm_compute. discriminate.
Qed.

Lemma C6_exact_size_witness :
  WordlistGenerator._estimate_combinations printable_args
  = Ok (range_size 95 20 20)
  /\ (95 - 1) * range_size 95 20 20 = 95 ^ (20 + 1) - 95 ^ 20
  /\ WordlistGenerator._estimate_combinations (range_args 20 20 printable)
     = Ok 3584859224085422343574104404449462890625
  /\ 2 ^ 128 < 3584859224085422343574104404449462890625
  /\ 3584859224085422343574104404449462890625 mod 2 ^ 64
     <> 3584859224085422343574104404449462890625.
Proof.
  apply (C6_exact_size printable_args 20 20); [reflexivity..|lia].
Defined.

(** C7, as the code has it.  An empty charset is not rejected for its
    own sake: with both lengths given, validation ends the program with
    exit code 1 exactly when [minLen > maxLen]; for [0 <= minLen <= maxLen]
    the empty charset is accepted, and the size is 1 when [minLen = 0]
    (the empty word) and 0 otherwise. *)
Theorem C7_empty_charset_amended (a : Namespace) (lo hi : Z) :
  range_mode a = true -> charset a = "" ->
  min_len a = Some lo -> max_len a = Some hi ->
  (WordlistGenerator.validate_args a = Raise (SystemExit 1) <-> hi < lo)
  /\ (0 <= lo <= hi ->
      WordlistGenerator.__init__ a
      = Ok (generator_of a (if lo =? 0 then 1 else 0))).
Proof.
  intros Hm Hc Hlo Hhi. split.
  - unfold WordlistGenerator.validate_args. rewrite Hlo, Hhi.
    destruct (Z.ltb_spec hi lo) as [Hlt|Hge]; split; intros H; try reflexivity;
      try discriminate; lia.
  - intros Hb. rewrite (init_range a lo hi Hm Hlo Hhi Hb). rewrite Hc.
    do 2 f_equal. unfold range_size. change (Z.of_nat (length (chars ""))) with 0.
    destruct (Z.eqb_spec lo 0) as [->|Hnz].
    + replace (Z.to_nat (hi - 0 + 1)) with (S (Z.to_nat hi)) by lia.
      rewrite sigma_first, sigma_zero_pow by lia. reflexivity.
    + apply sigma_zero_pow. lia.
Qed.

Lemma C7_empty_charset_amended_witness :
  (WordlistGenerator.validate_args (range_args 1 2 "") = Raise (SystemExit 1)
   <-> 2 < 1)
  /\ (0 <= 1 <= 2 ->
      WordlistGenerator.__init__ (range_args 1 2 "")
      = Ok (generator_of (range_args 1 2 "") (if 1 =? 0 then 1 else 0))).
Proof.
  apply (C7_empty_charset_amended (range_args 1 2 "") 1 2); reflexivity.
Defined.

(** C7 as claimed fails: the range 1 to 2 over the empty charset passes
    validation, gets size 0, and the run ends normally with exit code 0
    and an empty word list. *)
Lemma C7_empty_charset_not_rejected :
  WordlistGenerator.validate_args (range_args 1 2 "") <> Raise (SystemExit 1)
  /\ WordlistGenerator.__init__ (range_args 1 2 "")
     = Ok (generator_of (range_args 1 2 "") 0)
  /\ snd (main (range_args 1 2 "") None ∅) = Ok tt
  /\ exit_code (snd (main (range_args 1 2 "") None ∅)) = Some 0
  /\ fst (main (range_args 1 2 "") None ∅) !! "wordlist.txt" = Some "".
Proof.
  split; [discriminate|]. repeat split; vm_compute; reflexivity.
Qed.

(** What is read back from a record that holds the numeral of a count. *)
Lemma get_start_point_numeral (self : WordlistGenerator.t) (c : Z) (fs : FS) :
  0 <= c -> str_ok c = true ->
  resume (WordlistGenerator.args self) = true ->
  fs !! WordlistGenerator.session_file self = Some (numeral c) ->
  WordlistGenerator._get_start_point self fs = c.
Proof.
  intros Hc Hok Hres Hrec.
  unfold WordlistGenerator._get_start_point.
  rewrite Hres, Hrec.
  destruct (py_int_str c Hc Hok) as [Hstrip Hint].
  rewrite <- Hstrip, Hint. unfold py_str. rewrite Hok. reflexivity.
Qed.

(** C8.  A count written to the session record is the resume offset read
    back for the same output target: for every count [c >= 0] that the
    interpreter writes in decimal (one of at most 4300 digits), the save
    succeeds and the offset read from the store it leaves is [c]. *)
Theorem C8_session_round_trip (self : WordlistGenerator.t) (c : Z) (fs : FS) :
  0 <= c -> str_ok c = true ->
  resume (WordlistGenerator.args self) = true ->
  exists fs',
    WordlistGenerator._save_progress self c fs = (fs', Ok tt)
    /\ WordlistGenerator._get_start_point self fs' = c.
Proof.
  intros Hc Hok Hres.
  unfold WordlistGenerator._save_progress, py_str. rewrite Hok.
  eexists. split; [reflexivity|].
  apply get_start_point_numeral; [assumption..|apply lookup_insert_eq].
Qed.

Lemma C8_session_round_trip_witness :
  exists fs',
    WordlistGenerator._save_progress resuming_generator 120000 ∅ = (fs', Ok tt)
    /\ WordlistGenerator._get_start_point resuming_generator fs' = 120000.
Proof.
  apply (C8_session_round_trip resuming_generator 120000 ∅);
    [lia | vm_compute; reflexivity | reflexivity].
Defined.

(** Without [--resume] the record is not consulted at all. *)
Lemma get_start_point_no_resume (self : WordlistGenerator.t) (fs : FS) :
  resume (WordlistGenerator.args self) = false ->
  WordlistGenerator._get_start_point self fs = 0.
Proof.
  intros H. unfold WordlistGenerator._get_start_point. rewrite H. reflexivity.
Qed.

(** C9.  A run that the user's limit stops short of the whole space
    writes the words up to the limit and no more, ends as Completed with
    exit code 0, and leaves no session record.  The run is one within the
    limits of the interpreter: the size and the limit are in the float
    range, the resume offset is at most [sys.maxsize]. *)
Theorem C9_limit_reached_completes (a : Namespace) (self : WordlistGenerator.t)
    (l : Z) (fs : FS) :
  let start_count := WordlistGenerator._get_start_point self fs in
  WordlistGenerator.__init__ a = Ok self ->
  limit a = Some l ->
  0 < l < WordlistGenerator.total_combinations self ->
  0 <= start_count <= l ->
  within_limits a (WordlistGenerator.total_combinations self) = true ->
  start_count <= sys_maxsize ->
  exists g fs',
    enumerator a = Ok g
    /\ main a None fs = (fs', Ok tt)
    /\ terminal_state (snd (main a None fs)) = Some Completed
    /\ exit_code (snd (main a None fs)) = Some 0
    /\ fs' !! output a
       = Some (opened (output a) (0 <? start_count) fs
               +:+ lines a (drop (Z.to_nat start_count)
                                 (take (Z.to_nat l) (itertools.items g))))
    /\ Z.of_nat (length (drop (Z.to_nat start_count)
                              (take (Z.to_nat l) (itertools.items g))))
       = l - start_count
    /\ fs' !! (output a +:+ ".session") = None.
Proof.
  intros start_count Hinit Hlim Hl Hs Hin Hmax.
  destruct (init_inv a self Hinit) as (Hself & Hest & Hv & _).
  destruct (enumerator_size a Hv) as [ws [Hg Hsz]].
  assert (Htot : WordlistGenerator.total_combinations self = Z.of_nat (length ws))
    by congruence.
  assert (Hargs : WordlistGenerator.args self = a) by (rewrite Hself; reflexivity).
  assert (Hsess : WordlistGenerator.session_file self = output a +:+ ".session")
    by (rewrite Hself; reflexivity).
  assert (Hne : WordlistGenerator.session_file self
                <> output (WordlistGenerator.args self)).
  { rewrite Hsess, Hargs. apply session_file_ne. }
  destruct (run_generation_quiet self Hne ws fs) as (fs' & Hrun & Hout & Hgone).
  { rewrite Hargs. exact Hg. }
  { rewrite Hargs. exact Hin. }
  { fold start_count. lia. }
  rewrite Hargs, Hlim in Hout. rewrite Hsess in Hgone.
  rewrite effective_limit_supplied in Hout by lia.
  rewrite Z.min_l in Hout by lia. fold start_count in Hout.
  exists (itertools.Iter ws (Ok tt)), fs'. cbn [itertools.items].
  rewrite (main_runs a self None fs Hinit), Hrun. cbn [snd].
  repeat split; try assumption.
  - rewrite Hout. do 3 f_equal.
    rewrite take_drop_commute. do 2 f_equal. lia.
  - rewrite length_drop, length_take_le by lia. lia.
Qed.

Lemma C9_limit_reached_completes_witness :
  exists g fs',
    enumerator hundred_limit_three = Ok g
    /\ main hundred_limit_three None ∅ = (fs', Ok tt)
    /\ terminal_state (snd (main hundred_limit_three None ∅)) = Some Completed
    /\ exit_code (snd (main hundred_limit_three None ∅)) = Some 0
    /\ fs' !! "wordlist.txt"
       = Some (opened "wordlist.txt" (0 <? 0) ∅
               +:+ lines hundred_limit_three
                         (drop (Z.to_nat 0)
                               (take (Z.to_nat 3) (itertools.items g))))
    /\ Z.of_nat (length (drop (Z.to_nat 0)
                              (take (Z.to_nat 3) (itertools.items g))))
       = 3 - 0
    /\ fs' !! ("wordlist.txt" +:+ ".session") = None.
Proof.
  apply (C9_limit_reached_completes
           hundred_limit_three (generator_of hundred_limit_three 100) 3 ∅);
    [ reflexivity | reflexivity | cbn; lia | cbn; lia
    | vm_compute; reflexivity | vm_compute; discriminate ].
Defined.

(** The run of the witness, computed: a space of 100 words, limit 3. *)
Lemma limit_three_of_hundred :
  WordlistGenerator._estimate_combinations hundred_limit_three = Ok 100
  /\ snd (main hundred_limit_three None ∅) = Ok tt
  /\ fst (main hundred_limit_three None ∅) !! "wordlist.txt"
     = Some ("00" +:+ newline +:+ "01" +:+ newline +:+ "02" +:+ newline)
  /\ fst (main hundred_limit_three None ∅) !! "wordlist.txt.session" = None.
Proof. repeat split; vm_compute; reflexivity. Qed.

(** C10.  In the range mode with [minLen = 0] nothing is refused: the
    size counts the term [|charset| ^ 0 = 1], the first item of the
    enumeration is the empty word, its line is the prefix followed by the
    suffix, and a fresh run without limit, of a size within the limits of
    the interpreter, writes that line first. *)
Theorem C10_length_zero (a : Namespace) (hi : Z) (fs : FS) :
  let n := Z.of_nat (length (chars (charset a))) in
  range_mode a = true -> min_len a = Some 0 -> max_len a = Some hi ->
  0 <= hi ->
  exists rest,
    WordlistGenerator.__init__ a = Ok (generator_of a (n ^ 0 + range_size n 1 hi))
    /\ n ^ 0 = 1
    /\ enumerator a = Ok (itertools.Iter ([] :: rest) (Ok tt))
    /\ WordlistGenerator.render a [] = prefix a +:+ suffix a +:+ newline
    /\ (limit a = None -> resume a = false ->
        within_limits a (n ^ 0 + range_size n 1 hi) = true ->
        exists fs',
          main a None fs = (fs', Ok tt)
          /\ fs' !! output a
             = Some ((prefix a +:+ suffix a +:+ newline) +:+ lines a rest)).
Proof.
  intros n Hm Hlo Hhi Hb.
  assert (Hinit := init_range a 0 hi Hm Hlo Hhi ltac:(lia)).
  assert (Henum := range_enumerator a 0 hi Hm Hlo Hhi ltac:(lia)).
  fold n in Hinit.
  assert (Hsize : range_size n 0 hi = n ^ 0 + range_size n 1 hi).
  { unfold range_size.
    replace (Z.to_nat (hi - 0 + 1)) with (S (Z.to_nat (hi - 1 + 1))) by lia.
    apply sigma_first. }
  rewrite Hsize in Hinit.
  replace (Z.to_nat (hi - 0 + 1)) with (S (Z.to_nat hi)) in Henum by lia.
  change (Z.to_nat 0) with O in Henum.
  cbn [seq flat_map] in Henum.
  change (counter_block (chars (charset a)) 0) with [@nil ascii] in Henum.
  cbn [app] in Henum.
  eexists. split; [exact Hinit|]. split; [reflexivity|].
  split; [exact Henum|]. split; [reflexivity|].
  intros Hlim Hres Hin.
  set (self := generator_of a (n ^ 0 + range_size n 1 hi)) in *.
  assert (Hne : WordlistGenerator.session_file self
                <> output (WordlistGenerator.args self))
    by apply session_file_ne.
  assert (Hstart : WordlistGenerator._get_start_point self fs = 0)
    by (apply get_start_point_no_resume; exact Hres).
  destruct (run_generation_quiet self Hne _ fs Henum) as (fs' & Hrun & Hout & _);
    [exact Hin | rewrite Hstart; vm_compute; split; discriminate |].
  exists fs'. rewrite (main_runs a self None fs Hinit). split; [exact Hrun|].
  destruct (init_inv a self Hinit) as (_ & Hest & Hv & _).
  destruct (enumerator_size a Hv) as [ws [Hg Hsz]].
  assert (Hws : ws = [] :: flat_map (counter_block (chars (charset a)))
                                    (seq 1 (Z.to_nat hi))) by congruence.
  assert (Htot : WordlistGenerator.total_combinations self = Z.of_nat (length ws))
    by congruence.
  rewrite Hstart, Htot in Hout.
  change (WordlistGenerator.args self) with a in Hout.
  rewrite Hlim, effective_limit_absent, Hws in Hout.
  rewrite Z.sub_0_r, Nat2Z.id, drop_0, take_ge in Hout by reflexivity.
  exact Hout.
Qed.

Lemma C10_length_zero_witness :
  exists rest,
    WordlistGenerator.__init__ bracketed_args
    = Ok (generator_of bracketed_args (2 ^ 0 + range_size 2 1 1))
    /\ 2 ^ 0 = 1
    /\ enumerator bracketed_args = Ok (itertools.Iter ([] :: rest) (Ok tt))
    /\ WordlistGenerator.render bracketed_args [] = "<" +:+ ">" +:+ newline
    /\ (limit bracketed_args = None -> resume bracketed_args = false ->
        within_limits bracketed_args (2 ^ 0 + range_size 2 1 1) = true ->
        exists fs',
          main bracketed_args None ∅ = (fs', Ok tt)
          /\ fs' !! "wordlist.txt"
             = Some (("<" +:+ ">" +:+ newline) +:+ lines bracketed_args rest)).
Proof.
  apply (C10_length_zero bracketed_args 1 ∅); [reflexivity..|lia].
Defined.

(** The run of the witness, computed: the empty word comes first. *)
Lemma length_zero_run :
  fst (main bracketed_args None ∅) !! "wordlist.txt"
  = Some ("<>" +:+ newline +:+ "<a>" +:+ newline +:+ "<b>" +:+ newline).
Proof. vm_compute. reflexivity. Qed.

(** ** Further observations on the embedding *)

(** An interrupt pauses the run: the words handled so far are in the
    file, their count is in the session record, and the exit code is 0. *)
Lemma interrupt_pauses :
  snd (main (range_args 1 2 "01") (Some 2%nat) ∅) = Raise (SystemExit 0)
  /\ terminal_state (snd (main (range_args 1 2 "01") (Some 2%nat) ∅)) = Some Paused
  /\ fst (main (range_args 1 2 "01") (Some 2%nat) ∅) !! "wordlist.txt"
     = Some ("0" +:+ newline +:+ "1" +:+ newline)
  /\ fst (main (range_args 1 2 "01") (Some 2%nat) ∅) !! "wordlist.txt.session"
     = Some "2".
Proof. repeat split; vm_compute; reflexivity. Qed.

(** Resuming that run appends the four words that were left. *)
Lemma resume_after_pause :
  let paused := fst (main (range_args 1 2 "01") (Some 2%nat) ∅) in
  let resumed := main (with_resume (range_args 1 2 "01")) None paused in
  snd resumed = Ok tt
  /\ fst resumed !! "wordlist.txt"
     = fst (main (range_args 1 2 "01") None ∅) !! "wordlist.txt"
  /\ fst resumed !! "wordlist.txt.session" = None.
Proof. repeat split; vm_compute; reflexivity. Qed.

(** A negative minimum length is outside the usable specifications: the
    size is no longer an integer, and the enumerator raises at its first
    item. *)
Lemma negative_length :
  WordlistGenerator._estimate_combinations (range_args (-1) 2 "01") = NotInt
  /\ enumerator (range_args (-1) 2 "01")
     = Ok (itertools.Iter [] (Raise ValueError)).
Proof. split; reflexivity. Qed.

(** The second example of the design: pattern ["@%"] has 260 words and
    starts a0, a1, a2. *)
Lemma pattern_example :
  let a := {| min_len := Some 2; max_len := Some 2; charset := lowercase;
              pattern := Some "@%"; permutations := None;
              prefix := ""; suffix := ""; output := "wordlist.txt";
              limit := None; resume := false |} in
  WordlistGenerator._estimate_combinations a = Ok 260
  /\ (g ← enumerator a; Ok (take 3 (itertools.items g)))
     = Ok (map chars ["a0"; "a1"; "a2"]).
Proof. split; vm_compute; reflexivity. Qed.

(** The library functions on concrete inputs, as the interpreter gives
    them. *)
Lemma py_int_examples :
  py_int (" 42" +:+ newline) = Some 42
  /\ py_int "-5" = Some (-5)
  /\ py_int "+7" = Some 7
  /\ py_int "007" = Some 7
  /\ py_int "1_000" = Some 1000
  /\ py_int "1__0" = None
  /\ py_int "_1" = None
  /\ py_int "12a" = None
  /\ py_int "" = None
  /\ py_int "-" = None.
Proof. repeat split; reflexivity. Qed.

Lemma py_str_examples :
  py_str 0 = Ok "0" /\ py_str 10000 = Ok "10000" /\ py_str (-12) = Ok "-12".
Proof. repeat split; vm_compute; reflexivity. Qed.

(** The limits of the interpreter: a number of 4300 digits is written
    out, one of 4301 is not; 4301 digits are not read either; [islice]
    takes a stop value up to [sys.maxsize]. *)
Lemma interpreter_limits_examples :
  py_str (10 ^ 4300 - 1) = Ok (numeral (10 ^ 4300 - 1))
  /\ py_str (10 ^ 4300) = Raise ValueError
  /\ py_str (- 10 ^ 4300) = Raise ValueError
  /\ py_int (string_of_list_ascii (repeat "0"%char 4301)) = None
  /\ itertools.islice_consume sys_maxsize (itertools.Iter [chars "a"] (Ok tt))
     = Ok (itertools.Iter [] (Ok tt))
  /\ itertools.islice_consume (sys_maxsize + 1) (itertools.Iter [chars "a"] (Ok tt))
     = Raise ValueError
  /\ itertools.islice_consume (-1) (itertools.Iter [chars "a"] (Ok tt))
     = Raise ValueError.
Proof.
  destruct (digit_limit (10 ^ 4300) eq_refl) as (H1 & H2 & H3).
  unfold py_str. rewrite H1, H2, H3.
  repeat split; try reflexivity; vm_compute; reflexivity.
Qed.

Lemma permutations_examples :
  map join (itertools.permutations (chars "abc"))
  = ["abc"; "acb"; "bac"; "bca"; "cab"; "cba"]
  /\ map join (itertools.permutations (chars "aab"))
     = ["aab"; "aba"; "aab"; "aba"; "baa"; "baa"]
  /\ itertools.permutations (chars "") = [[]].
Proof. repeat split; reflexivity. Qed.

Lemma product_examples :
  map join (itertools.product [chars "ab"; chars "01"]) = ["a0"; "a1"; "b0"; "b1"]
  /\ itertools.product_repeat (chars "ab") 0 = Ok [[]]
  /\ itertools.product_repeat (chars "ab") (-1) = Raise ValueError.
Proof. repeat split; reflexivity. Qed.

Lemma charset_sizes :
  length (CHARSET_MAP_get "@") = 26%nat
  /\ length (CHARSET_MAP_get "%") = 10%nat
  /\ length (CHARSET_MAP_get "^") = 31%nat
  /\ CHARSET_MAP_get "x" = ["x"%char].
Proof. repeat split; reflexivity. Qed.

(** * More of the program *)

(** ** What the enumerators contain *)

Section Membership.
Context {A : Type}.

(** A tuple is in the product exactly when it takes one element from each
    pool, in order. *)
Lemma product_spec (pools : list (list A)) (w : list A) :
  In w (itertools.product pools) <-> Forall2 (fun x p => In x p) w pools.
Proof.
  revert w. induction pools as [|p ps IH]; intros w.
  - simpl. split.
    + intros [<-|[]]. constructor.
    + intros H. inversion H. left. reflexivity.
  - cbn [itertools.product]. rewrite in_flat_map. split.
    + intros (x & Hx & Hw). apply in_map_iff in Hw.
      destruct Hw as (w' & <- & Hw'). constructor; [exact Hx|].
      apply IH, Hw'.
    + intros H. inversion H as [|x p' w' ps' Hx Hw']; subst.
      exists x. split; [exact Hx|]. apply in_map, IH, Hw'.
Qed.

Lemma Forall2_repeat_r (P : A -> list A -> Prop) (pool : list A) (n : nat)
    (w : list A) :
  Forall2 P w (repeat pool n) <-> length w = n /\ List.Forall (fun x => P x pool) w.
Proof.
  revert w. induction n as [|n IH]; intros w; simpl.
  - split.
    + intros H. inversion H. split; [reflexivity|constructor].
    + intros [Hl _]. destruct w; [constructor|discriminate].
  - split.
    + intros H. inversion H as [|x p' w' ps' Hx Hw']; subst.
      apply IH in Hw'. destruct Hw' as [Hl Hf].
      split; [simpl; congruence|constructor; assumption].
    + intros [Hl Hf]. destruct w as [|x w']; [discriminate|].
      inversion Hf; subst. constructor; [assumption|].
      apply IH. split; [simpl in Hl; congruence|assumption].
Qed.

Lemma NoDup_flat_map {B : Type} (f : A -> list B) (l : list A) :
  List.NoDup l ->
  (forall x, In x l -> List.NoDup (f x)) ->
  (forall x y z, In x l -> In y l -> In z (f x) -> In z (f y) -> x = y) ->
  List.NoDup (flat_map f l).
Proof.
  induction l as [|x l IH]; intros Hnd Hf Hdis; simpl; [constructor|].
  inversion Hnd as [|x' l' Hx Hl]; subst.
  apply List.NoDup_app.
  - apply Hf. left. reflexivity.
  - apply IH; [assumption| |].
    + intros y Hy. apply Hf. right. exact Hy.
    + intros y1 y2 z H1 H2. apply Hdis; right; assumption.
  - intros z Hz1 Hz2. apply in_flat_map in Hz2. destruct Hz2 as (y & Hy & Hzy).
    assert (x = y) by (apply (Hdis x y z); simpl; auto).
    subst. contradiction.
Qed.

Lemma NoDup_map_cons (x : A) (l : list (list A)) :
  List.NoDup l -> List.NoDup (map (cons x) l).
Proof.
  induction 1 as [|w l Hw _ IH]; simpl; constructor; [|exact IH].
  intros H. apply in_map_iff in H. destruct H as (v & E & Hv).
  inversion E; subst. contradiction.
Qed.

(** Pools without repeated elements give a product without repeated
    tuples. *)
Lemma NoDup_product (pools : list (list A)) :
  List.Forall (@List.NoDup A) pools -> List.NoDup (itertools.product pools).
Proof.
  induction 1 as [|p ps Hp _ IH].
  - simpl. constructor; [intros []|constructor].
  - cbn [itertools.product]. apply NoDup_flat_map.
    + exact Hp.
    + intros x _. apply NoDup_map_cons, IH.
    + intros x y z _ _ Hx Hy.
      apply in_map_iff in Hx, Hy.
      destruct Hx as (u & <- & _), Hy as (v & E & _). congruence.
Qed.

Lemma selections_spec (l : list A) (x : A) (r : list A) :
  In (x, r) (itertools.selections l)
  <-> exists l1 l2, l = l1 ++ x :: l2 /\ r = l1 ++ l2.
Proof.
  revert r. induction l as [|y l IH]; intros r; simpl.
  - split; [intros []|]. intros (l1 & l2 & E & _). destruct l1; discriminate.
  - split.
    + intros [E|H].
      * inversion E; subst. exists [], r. split; reflexivity.
      * apply in_map_iff in H. destruct H as ([x' r'] & E & H).
        simpl in E. inversion E; subst.
        apply IH in H. destruct H as (l1 & l2 & -> & ->).
        exists (y :: l1), l2. split; reflexivity.
    + intros (l1 & l2 & E & ->). destruct l1 as [|z l1]; simpl in E.
      * inversion E; subst. left. reflexivity.
      * inversion E; subst. right. apply in_map_iff.
        exists (x, l1 ++ l2). split; [reflexivity|].
        apply IH. eauto.
Qed.

Lemma permutations_of_length_sound (n : nat) (l w : list A) :
  length l = n ->
  In w (itertools.permutations_of_length n l) -> Permutation l w.
Proof.
  revert l w. induction n as [|n IH]; intros l w Hl Hw.
  - destruct l; [|discriminate]. destruct Hw as [<-|[]]. constructor.
  - cbn [itertools.permutations_of_length] in Hw. apply in_flat_map in Hw.
    destruct Hw as ([x r] & Hsel & Hw). simpl in Hw.
    apply in_map_iff in Hw. destruct Hw as (w' & <- & Hw').
    apply selections_spec in Hsel. destruct Hsel as (l1 & l2 & -> & ->).
    rewrite <- Permutation_middle. constructor.
    apply IH; [|exact Hw'].
    rewrite length_app in *. simpl in Hl. lia.
Qed.

Lemma permutations_of_length_complete (n : nat) (l w : list A) :
  length l = n ->
  Permutation l w -> In w (itertools.permutations_of_length n l).
Proof.
  revert l w. induction n as [|n IH]; intros l w Hl Hp.
  - destruct l; [|discriminate]. apply Permutation_nil in Hp. subst.
    left. reflexivity.
  - destruct w as [|x w'].
    { apply Permutation_length in Hp. simpl in Hp. lia. }
    assert (Hx : In x l).
    { apply (Permutation_in x (Permutation_sym Hp)). left. reflexivity. }
    apply in_split in Hx. destruct Hx as (l1 & l2 & ->).
    cbn [itertools.permutations_of_length]. apply in_flat_map.
    exists (x, l1 ++ l2). split.
    + apply selections_spec. eauto.
    + simpl. apply in_map. apply IH.
      * rewrite length_app in *. simpl in Hl. lia.
      * apply Permutation_sym.
        apply (Permutation_cons_app_inv l1 l2 (Permutation_sym Hp)).
Qed.

(** [permutations] yields the rearrangements of its input and nothing
    else. *)
Lemma permutations_spec (l w : list A) :
  In w (itertools.permutations l) <-> Permutation l w.
Proof.
  unfold itertools.permutations. split.
  - apply permutations_of_length_sound. reflexivity.
  - apply permutations_of_length_complete. reflexivity.
Qed.

End Membership.

(** ** The three modes *)

Lemma truthy_str_Some (o : option string) (s : string) :
  o = Some s -> s <> "" -> truthy_str o = true /\ default "" o = s.
Proof. intros -> Hs. destruct s; [contradiction|]. split; reflexivity. Qed.

(** X1.  In permutations mode the size is the factorial of the length of
    the string, repeated characters and all, whatever the other
    arguments are. *)
Theorem X1_permutations_size (a : Namespace) (s : string) :
  permutations a = Some s -> s <> "" ->
  WordlistGenerator._estimate_combinations a
  = Ok (Z.of_nat (fact (length (chars s)))).
Proof.
  intros Hp Hs. destruct (truthy_str_Some _ _ Hp Hs) as [Ht Hd].
  unfold WordlistGenerator._estimate_combinations.
  rewrite Ht, Hd, length_permutations. reflexivity.
Qed.

Lemma X1_permutations_size_witness :
  WordlistGenerator._estimate_combinations (permutations_args None None "aab")
  = Ok (Z.of_nat (fact (length (chars "aab")))).
Proof.
  apply (X1_permutations_size (permutations_args None None "aab") "aab");
    [reflexivity|discriminate].
Defined.

(** X2.  In permutations mode the enumerator yields the rearrangements of
    the string and nothing else: every emitted tuple uses each character
    of the input exactly as often as the input has it, and every such
    arrangement is emitted. *)
Theorem X2_permutations_are_rearrangements (a : Namespace) (s : string) :
  permutations a = Some s -> s <> "" ->
  exists ws,
    enumerator a = Ok (itertools.Iter ws (Ok tt))
    /\ forall w, In w ws <-> Permutation (chars s) w.
Proof.
  intros Hp Hs. destruct (truthy_str_Some _ _ Hp Hs) as [Ht Hd].
  unfold enumerator, WordlistGenerator.permutations_generator.
  rewrite Ht, Hd. eexists. split; [reflexivity|].
  intros w. apply permutations_spec.
Qed.

Lemma X2_permutations_are_rearrangements_witness :
  exists ws,
    enumerator (permutations_args None None "aab") = Ok (itertools.Iter ws (Ok tt))
    /\ forall w, In w ws <-> Permutation (chars "aab") w.
Proof.
  apply (X2_permutations_are_rearrangements (permutations_args None None "aab") "aab");
    [reflexivity|discriminate].
Defined.

Lemma CHARSET_MAP_get_literal (c : ascii) :
  is_literal c = true -> CHARSET_MAP_get c = [c].
Proof.
  unfold is_literal, CHARSET_MAP_get. intros H.
  apply andb_true_iff in H. destruct H as [H H3].
  apply andb_true_iff in H. destruct H as [H1 H2].
  apply negb_true_iff in H1, H2, H3.
  rewrite Ascii.eqb_sym in H1. rewrite Ascii.eqb_sym in H2.
  rewrite Ascii.eqb_sym in H3.
  cbn [find CHARSET_MAP fst]. rewrite H1, H2, H3. reflexivity.
Qed.

Lemma product_singletons (cs : list ascii) :
  itertools.product (map (fun c => [c]) cs) = [cs].
Proof.
  induction cs as [|c cs IH]; [reflexivity|].
  cbn [map itertools.product flat_map]. rewrite IH. reflexivity.
Qed.

(** X3.  A pattern without class symbols has exactly one word, the pattern
    itself. *)
Theorem X3_literal_pattern (a : Namespace) (p : string) :
  truthy_str (permutations a) = false ->
  pattern a = Some p -> p <> "" ->
  forallb is_literal (chars p) = true ->
  enumerator a = Ok (itertools.Iter [chars p] (Ok tt))
  /\ WordlistGenerator._estimate_combinations a = Ok 1.
Proof.
  intros Hperm Hp Hs Hlit. destruct (truthy_str_Some _ _ Hp Hs) as [Ht Hd].
  assert (Hmap : map CHARSET_MAP_get (chars p) = map (fun c => [c]) (chars p)).
  { apply map_ext_in. intros c Hc. apply CHARSET_MAP_get_literal.
    rewrite forallb_forall in Hlit. apply Hlit, Hc. }
  split.
  - unfold enumerator, WordlistGenerator.combinations_generator.
    rewrite Hperm, Ht, Hd, Hmap, product_singletons. reflexivity.
  - unfold WordlistGenerator._estimate_combinations.
    rewrite Hperm, Ht, Hd, pattern_count, Hmap, product_singletons.
    reflexivity.
Qed.

Lemma X3_literal_pattern_witness :
  enumerator (pattern_args "admin-2024")
  = Ok (itertools.Iter [chars "admin-2024"] (Ok tt))
  /\ WordlistGenerator._estimate_combinations (pattern_args "admin-2024") = Ok 1.
Proof.
  apply (X3_literal_pattern (pattern_args "admin-2024") "admin-2024");
    [reflexivity|reflexivity|discriminate|reflexivity].
Defined.

Lemma Forall2_map_r_iff {X Y W : Type} (P : X -> W -> Prop) (f : Y -> W)
    (w : list X) (l : list Y) :
  Forall2 P w (map f l) <-> Forall2 (fun x y => P x (f y)) w l.
Proof.
  revert w. induction l as [|y l IH]; intros w; simpl.
  - split; intros H; inversion H; constructor.
  - split; intros H; inversion H; subst; constructor; try assumption;
      apply IH; assumption.
Qed.

(** X4.  In pattern mode the enumerator yields exactly the tuples that
    match the pattern position by position: a class symbol is matched by
    the characters of its class, any other pattern character by itself. *)
Theorem X4_pattern_words (a : Namespace) (p : string) :
  truthy_str (permutations a) = false ->
  pattern a = Some p -> p <> "" ->
  exists ws,
    enumerator a = Ok (itertools.Iter ws (Ok tt))
    /\ forall w,
         In w ws <-> Forall2 (fun x c => In x (CHARSET_MAP_get c)) w (chars p).
Proof.
  intros Hperm Hp Hs. destruct (truthy_str_Some _ _ Hp Hs) as [Ht Hd].
  unfold enumerator, WordlistGenerator.combinations_generator.
  rewrite Hperm, Ht, Hd. eexists. split; [reflexivity|].
  intros w. rewrite product_spec. apply Forall2_map_r_iff.
Qed.

Lemma X4_pattern_words_witness :
  exists ws,
    enumerator (pattern_args "@%x") = Ok (itertools.Iter ws (Ok tt))
    /\ forall w,
         In w ws
         <-> Forall2 (fun x c => In x (CHARSET_MAP_get c)) w (chars "@%x").
Proof.
  apply (X4_pattern_words (pattern_args "@%x") "@%x");
    [reflexivity|reflexivity|discriminate].
Defined.

(** X5.  In range mode the enumerator yields exactly the tuples over the
    charset whose length lies between [minLen] and [maxLen]. *)
Theorem X5_range_words (a : Namespace) (lo hi : Z) :
  range_mode a = true -> min_len a = Some lo -> max_len a = Some hi ->
  0 <= lo <= hi ->
  exists ws,
    enumerator a = Ok (itertools.Iter ws (Ok tt))
    /\ forall w,
         In w ws
         <-> (lo <= Z.of_nat (length w) <= hi
              /\ List.Forall (fun c => In c (chars (charset a))) w).
Proof.
  intros Hm Hlo Hhi Hb. eexists. split; [apply range_enumerator; eassumption|].
  intros w. rewrite in_flat_map. split.
  - intros (len & Hlen & Hw). apply in_seq in Hlen.
    rewrite <- product_repeat_counter in Hw.
    apply product_spec, Forall2_repeat_r in Hw. destruct Hw as [Hl Hf].
    split; [lia|exact Hf].
  - intros [Hl Hf]. exists (length w). split; [apply in_seq; lia|].
    rewrite <- product_repeat_counter.
    apply product_spec, Forall2_repeat_r. split; [reflexivity|exact Hf].
Qed.

Lemma X5_range_words_witness :
  exists ws,
    enumerator (range_args 1 2 "01") = Ok (itertools.Iter ws (Ok tt))
    /\ forall w,
         In w ws
         <-> (1 <= Z.of_nat (length w) <= 2
              /\ List.Forall (fun c => In c (chars "01")) w).
Proof.
  apply (X5_range_words (range_args 1 2 "01") 1 2); [reflexivity..|lia].
Defined.

(** A list of explicit characters has no repetition. *)
Ltac distinct_chars :=
  repeat (constructor;
          [ let H := fresh in
            cbn [In]; intros H;
            repeat (destruct H as [H|H]; [discriminate H|]); exact H
          | ]);
  constructor.

Lemma NoDup_CHARSET_MAP_get (c : ascii) : List.NoDup (CHARSET_MAP_get c).
Proof.
  assert (Hsets : List.Forall (fun kv => List.NoDup (snd kv)) CHARSET_MAP).
  { unfold CHARSET_MAP.
    repeat (apply List.Forall_cons; [cbn; distinct_chars|]).
    apply List.Forall_nil. }
  unfold CHARSET_MAP_get.
  destruct (find (fun kv => Ascii.eqb (fst kv) c) CHARSET_MAP) as [kv|] eqn:E.
  - apply find_some in E. destruct E as [Hin _].
    rewrite List.Forall_forall in Hsets. apply Hsets, Hin.
  - constructor; [intros []|constructor].
Qed.

Lemma NoDup_counter_blocks (pool : list ascii) (lo k : nat) :
  List.NoDup pool -> List.NoDup (flat_map (counter_block pool) (seq lo k)).
Proof.
  intros Hpool. apply NoDup_flat_map.
  - apply seq_NoDup.
  - intros len _. rewrite <- product_repeat_counter. apply NoDup_product.
    apply List.Forall_forall. intros p Hp. apply repeat_spec in Hp. subst.
    exact Hpool.
  - intros len1 len2 w _ _ H1 H2.
    rewrite <- product_repeat_counter in H1, H2.
    apply product_spec, Forall2_repeat_r in H1, H2. lia.
Qed.

(** X6.  Outside permutations mode no tuple is emitted twice: always in
    pattern mode, and in range mode whenever the charset itself has no
    repeated character. *)
Theorem X6_no_repeats (a : Namespace) :
  truthy_str (permutations a) = false ->
  valid_spec a = true ->
  truthy_str (pattern a) = true \/ List.NoDup (chars (charset a)) ->
  exists ws,
    enumerator a = Ok (itertools.Iter ws (Ok tt)) /\ List.NoDup ws.
Proof.
  intros Hperm Hv Hor.
  unfold valid_spec in Hv. rewrite Hperm in Hv. cbn [orb] in Hv.
  destruct (truthy_str (pattern a)) eqn:Ht.
  - unfold enumerator, WordlistGenerator.combinations_generator.
    rewrite Hperm, Ht. eexists. split; [reflexivity|].
    apply NoDup_product, List.Forall_forall. intros p Hp.
    apply in_map_iff in Hp. destruct Hp as (c & <- & _).
    apply NoDup_CHARSET_MAP_get.
  - destruct Hor as [?|Hpool]; [discriminate|]. cbn [orb] in Hv.
    destruct (min_len a) as [lo|] eqn:Hlo; [|discriminate].
    destruct (max_len a) as [hi|] eqn:Hhi; [|discriminate].
    apply andb_true_iff in Hv. destruct Hv as [H0 Hle].
    apply Z.leb_le in H0, Hle.
    eexists. split.
    + apply (range_enumerator a lo hi); [|assumption..|lia].
      unfold range_mode. rewrite Hperm, Ht. reflexivity.
    + apply NoDup_counter_blocks, Hpool.
Qed.

Lemma X6_no_repeats_witness :
  exists ws,
    enumerator (pattern_args "@%x") = Ok (itertools.Iter ws (Ok tt))
    /\ List.NoDup ws.
Proof.
  apply (X6_no_repeats (pattern_args "@%x"));
    [reflexivity|reflexivity|left; reflexivity].
Defined.

(** A charset with a repeated character does repeat words, and so does a
    permutations string with a repeated character. *)
Lemma repeated_characters_repeat_words :
  enumerator (range_args 1 1 "aa")
  = Ok (itertools.Iter [chars "a"; chars "a"] (Ok tt))
  /\ enumerator (permutations_args None None "aa")
     = Ok (itertools.Iter [chars "aa"; chars "aa"] (Ok tt)).
Proof. split; reflexivity. Qed.

(** ** What a run touches *)

Section Footprint.
Variable self : WordlistGenerator.t.
Variable p : string.
Hypothesis Hout : p <> output (WordlistGenerator.args self).
Hypothesis Hsess : p <> WordlistGenerator.session_file self.

Lemma save_progress_other (c : Z) (fs : FS) :
  fst (WordlistGenerator._save_progress self c fs) !! p = fs !! p.
Proof.
  unfold WordlistGenerator._save_progress.
  destruct (py_str c); cbn [fst];
    rewrite ?lookup_insert_ne by congruence; reflexivity.
Qed.

Lemma write_loop_other (limit : Z) (ws : list (list ascii)) (fin : outcome unit) :
  forall (count : Z) (sigint : option nat) (fs : FS),
    fst (WordlistGenerator.write_loop self limit ws fin count sigint fs) !! p
    = fs !! p.
Proof.
  assert (Hint : forall count fs,
            fst (let '(fs', r) := WordlistGenerator._save_progress self count fs in
                 (fs', mbind (M := outcome) (B := unit)
                         (fun _ => Raise (SystemExit 0)) r)) !! p = fs !! p).
  { intros count fs. rewrite <- (save_progress_other count fs).
    destruct (WordlistGenerator._save_progress self count fs). reflexivity. }
  induction ws as [|w ws IH]; intros count sigint fs.
  - destruct sigint as [[|k]|]; cbn [WordlistGenerator.write_loop];
      [apply Hint|reflexivity..].
  - destruct sigint as [[|k]|]; cbn [WordlistGenerator.write_loop];
      [apply Hint|..];
      (destruct (limit <=? count); [reflexivity|];
       set (fs1 := WordlistGenerator.fwrite _ _ fs);
       assert (H1 : fs1 !! p = fs !! p)
         by (unfold fs1, WordlistGenerator.fwrite;
             apply lookup_insert_ne; congruence);
       assert (Hsave := save_progress_other (count + 1) fs1);
       destruct (_ =? 0);
         [ destruct (WordlistGenerator._save_progress self (count + 1) fs1)
             as [fs2 r];
           cbn [fst] in Hsave;
           destruct r as [[]|e|]; cbn [fst]; rewrite ?IH; congruence
         | rewrite IH; exact H1 ]).
Qed.

Lemma write_to_file_other (g : itertools.iter (list ascii)) (start_count limit : Z)
    (sigint : option nat) (fs : FS) :
  fst (WordlistGenerator._write_to_file self g start_count limit sigint fs) !! p
  = fs !! p.
Proof.
  assert (Hopen : forall b,
            WordlistGenerator.open_output
              (output (WordlistGenerator.args self)) b fs !! p = fs !! p).
  { intros b. unfold WordlistGenerator.open_output.
    destruct b; [destruct (fs !! output _)|]; try reflexivity;
      apply lookup_insert_ne; congruence. }
  unfold WordlistGenerator._write_to_file.
  destruct (if 0 <? start_count then _ else _) as [rest|e|]; cbn [fst];
    [rewrite write_loop_other|..]; apply Hopen.
Qed.

Lemma run_generation_other (sigint : option nat) (fs : FS) :
  fst (WordlistGenerator.run_generation self sigint fs) !! p = fs !! p.
Proof.
  unfold WordlistGenerator.run_generation.
  set (start_count := WordlistGenerator._get_start_point self fs).
  set (limit := WordlistGenerator.effective_limit _ _).
  assert (Hgen :
    fst (if truthy_str (permutations (WordlistGenerator.args self))
         then WordlistGenerator._generate_permutations self start_count limit sigint fs
         else WordlistGenerator._generate_combinations self start_count limit sigint fs)
    !! p = fs !! p).
  { unfold WordlistGenerator._generate_permutations,
      WordlistGenerator._generate_combinations.
    destruct (truthy_str _); [apply write_to_file_other|].
    destruct (WordlistGenerator.combinations_generator _); [|reflexivity..].
    apply write_to_file_other. }
  destruct (WordlistGenerator.announce _ _); [|reflexivity..].
  destruct (if truthy_str _ then _ else _) as [fs1 r]. cbn [fst] in Hgen.
  destruct r as [[]|e|]; cbn [fst]; try exact Hgen.
  destruct (fs1 !! WordlistGenerator.session_file self); [|exact Hgen].
  rewrite lookup_delete_ne by congruence. exact Hgen.
Qed.

End Footprint.

(** X7.  Whatever the arguments, the interrupt and the outcome, a run
    leaves every file other than the word list and its session record as
    it found it. *)
Theorem X7_footprint (a : Namespace) (sigint : option nat) (fs : FS) (p : string) :
  p <> output a -> p <> output a +:+ ".session" ->
  fst (main a sigint fs) !! p = fs !! p.
Proof.
  intros Hout Hsess. unfold main.
  destruct (negb _ && _); [reflexivity|].
  destruct (WordlistGenerator.__init__ a) as [self| |] eqn:Hinit;
    [|reflexivity..].
  apply init_inv in Hinit. destruct Hinit as (Hself & _).
  rewrite Hself. apply run_generation_other; assumption.
Qed.

Lemma X7_footprint_witness :
  fst (main hundred_limit_three (Some 2%nat) {["notes.txt" := "keep"]})
  !! "notes.txt"
  = ({["notes.txt" := "keep"]} : FS) !! "notes.txt".
Proof.
  apply (X7_footprint hundred_limit_three (Some 2%nat)
           {["notes.txt" := "keep"]} "notes.txt"); discriminate.
Defined.

(** ** Interrupting and resuming *)

Lemma effective_limit_le (user_limit : option Z) (total : Z) :
  WordlistGenerator.effective_limit user_limit total <= total.
Proof.
  unfold WordlistGenerator.effective_limit.
  destruct (truthy_int user_limit); cbn [andb]; [|lia].
  destruct (Z.ltb_spec (default 0 user_limit) total); lia.
Qed.

Section Interrupt.
Variable self : WordlistGenerator.t.
Hypothesis Hne : WordlistGenerator.session_file self <> output (WordlistGenerator.args self).

Local Abbreviation a := (WordlistGenerator.args self).
Local Abbreviation out := (output (WordlistGenerator.args self)).
Local Abbreviation sess := (WordlistGenerator.session_file self).

(** An interrupt that arrives while the loop still has [k] words to
    handle: those [k] words are written, their count is saved, and the
    program exits. *)
Lemma write_loop_interrupted (limit : Z) (fin : outcome unit) (k : nat) :
  forall (ws : list (list ascii)) (count : Z) (fs : FS) (cur : string),
    fs !! out = Some cur ->
    (k <= length ws)%nat ->
    Z.of_nat k <= Z.max 0 (limit - count) ->
    str_ok count = true ->
    str_ok (count + Z.of_nat k) = true ->
    exists fs',
      WordlistGenerator.write_loop self limit ws fin count (Some k) fs
      = (fs', Raise (SystemExit 0))
      /\ fs' !! out = Some (cur +:+ lines a (take k ws))
      /\ fs' !! sess = Some (numeral (count + Z.of_nat k)).
Proof.
  induction k as [|k IH]; intros ws count fs cur Hcur Hlen Hk Hc Hck.
  - exists (<[sess := numeral count]> fs).
    split; [|split].
    + destruct ws; cbn [WordlistGenerator.write_loop];
        rewrite (save_progress_ok self count fs Hc); reflexivity.
    + rewrite lookup_insert_ne by exact Hne.
      rewrite take_0. simpl. rewrite append_nil_r. exact Hcur.
    + rewrite lookup_insert_eq, Z.add_0_r. reflexivity.
  - destruct ws as [|w ws]; [simpl in Hlen; lia|].
    cbn [WordlistGenerator.write_loop].
    destruct (Z.leb_spec limit count) as [?|Hlt]; [lia|].
    assert (Hnext : str_ok (count + 1) = true)
      by (apply (str_ok_between count (count + Z.of_nat (S k)));
          [assumption..|lia]).
    set (fs1 := WordlistGenerator.fwrite _ _ fs).
    assert (H1 : fs1 !! out = Some (cur +:+ WordlistGenerator.render a w)).
    { unfold fs1, WordlistGenerator.fwrite.
      rewrite lookup_insert_eq, Hcur. reflexivity. }
    rewrite (save_progress_ok self (count + 1) fs1 Hnext).
    assert (Hstep : exists fs3,
              (if (count + 1) mod 10000 =? 0
               then (<[sess := numeral (count + 1)]> fs1, Ok tt)
               else (fs1, Ok tt)) = (fs3, Ok tt)
              /\ fs3 !! out = Some (cur +:+ WordlistGenerator.render a w)).
    { destruct (_ =? 0); eexists; (split; [reflexivity|]);
        [rewrite lookup_insert_ne by exact Hne|]; exact H1. }
    destruct Hstep as [fs3 [-> H3]].
    destruct (IH ws (count + 1) fs3 _ H3) as (fs' & Hrun & Hout & Hs);
      [ simpl in Hlen; lia | lia | exact Hnext
      | replace (count + 1 + Z.of_nat k) with (count + Z.of_nat (S k)) by lia;
        exact Hck | ].
    exists fs'. split; [exact Hrun|]. split.
    + rewrite Hout. cbn [take lines fold_right].
      rewrite append_assoc. reflexivity.
    + rewrite Hs. do 2 f_equal. lia.
Qed.

Lemma write_to_file_interrupted (ws : list (list ascii)) (start_count limit : Z)
    (k : nat) (fs : FS) :
  0 <= start_count <= sys_maxsize ->
  (k <= length (drop (Z.to_nat start_count) ws))%nat ->
  Z.of_nat k <= Z.max 0 (limit - start_count) ->
  str_ok (start_count + Z.of_nat k) = true ->
  exists fs',
    WordlistGenerator._write_to_file self (itertools.Iter ws (Ok tt))
      start_count limit (Some k) fs = (fs', Raise (SystemExit 0))
    /\ fs' !! out
       = Some (opened out (0 <? start_count) fs
               +:+ lines a (take k (drop (Z.to_nat start_count) ws)))
    /\ fs' !! sess = Some (numeral (start_count + Z.of_nat k)).
Proof.
  intros Hs Hlen Hk Hck. unfold WordlistGenerator._write_to_file.
  assert (Hopen := lookup_open_output self (0 <? start_count) fs).
  assert (Hstart := str_ok_maxsize _ Hs).
  destruct (Z.ltb_spec 0 start_count) as [Hpos|Hz].
  - rewrite islice_consume_quiet by exact Hs.
    cbn [itertools.items itertools.at_end].
    apply (write_loop_interrupted limit (Ok tt) k _ start_count _ _ Hopen);
      assumption.
  - cbn [itertools.items itertools.at_end].
    replace (Z.to_nat start_count) with O in Hlen |- * by lia.
    rewrite drop_0 in Hlen |- *.
    apply (write_loop_interrupted limit (Ok tt) k ws start_count _ _ Hopen);
      assumption.
Qed.

(** The count that an interrupt saves is one that can be written out. *)
Lemma str_ok_paused (start_count lim : Z) (k : nat) :
  str_ok start_count = true -> str_ok lim = true ->
  Z.of_nat k <= Z.max 0 (lim - start_count) ->
  str_ok (start_count + Z.of_nat k) = true.
Proof.
  intros Hs Hl Hk.
  destruct (Z.le_gt_cases (start_count + Z.of_nat k) lim).
  - apply (str_ok_between start_count lim); [assumption..|lia].
  - replace (start_count + Z.of_nat k) with start_count by lia. exact Hs.
Qed.

Lemma run_generation_interrupted (ws : list (list ascii)) (k : nat) (fs : FS) :
  enumerator a = Ok (itertools.Iter ws (Ok tt)) ->
  within_limits a (WordlistGenerator.total_combinations self) = true ->
  let start_count := WordlistGenerator._get_start_point self fs in
  let limit := WordlistGenerator.effective_limit
                 (limit a) (WordlistGenerator.total_combinations self) in
  0 <= start_count <= sys_maxsize ->
  (k <= length (drop (Z.to_nat start_count) ws))%nat ->
  Z.of_nat k <= Z.max 0 (limit - start_count) ->
  exists fs',
    WordlistGenerator.run_generation self (Some k) fs
    = (fs', Raise (SystemExit 0))
    /\ fs' !! out
       = Some (opened out (0 <? start_count) fs
               +:+ lines a (take k (drop (Z.to_nat start_count) ws)))
    /\ fs' !! sess = Some (numeral (start_count + Z.of_nat k)).
Proof.
  intros Henum Hin start_count limit Hs Hlen Hk.
  destruct (within_limits_inv _ _ Hin) as (Hann & _ & Hlim).
  assert (Hck : str_ok (start_count + Z.of_nat k) = true)
    by (apply (str_ok_paused start_count limit);
        [apply str_ok_maxsize, Hs | exact Hlim | exact Hk]).
  destruct (write_to_file_interrupted ws start_count limit k fs Hs Hlen Hk Hck)
    as (fs1 & Hrun & Hout & Hsess).
  assert (Hgen :
    (if truthy_str (permutations a)
     then WordlistGenerator._generate_permutations self start_count limit (Some k) fs
     else WordlistGenerator._generate_combinations self start_count limit (Some k) fs)
    = (fs1, Raise (SystemExit 0))).
  { unfold enumerator in Henum.
    unfold WordlistGenerator._generate_permutations,
      WordlistGenerator._generate_combinations.
    destruct (truthy_str (permutations a)).
    - assert (E : WordlistGenerator.permutations_generator a
                  = itertools.Iter ws (Ok tt)) by congruence.
      rewrite E. exact Hrun.
    - rewrite Henum. exact Hrun. }
  unfold WordlistGenerator.run_generation. fold start_count limit.
  rewrite Hann, Hgen. exists fs1. auto.
Qed.

End Interrupt.

(** What [__init__] establishes, gathered. *)
Lemma init_facts (a : Namespace) (self : WordlistGenerator.t) :
  WordlistGenerator.__init__ a = Ok self ->
  exists ws,
    self = generator_of a (Z.of_nat (length ws))
    /\ enumerator a = Ok (itertools.Iter ws (Ok tt)).
Proof.
  intros Hinit.
  destruct (init_inv a self Hinit) as (Hself & Hest & Hv & _).
  destruct (enumerator_size a Hv) as [ws [Hg Hsz]].
  exists ws. split; [|exact Hg].
  rewrite Hself. f_equal. congruence.
Qed.

Lemma init_with_resume (a : Namespace) (self : WordlistGenerator.t) :
  WordlistGenerator.__init__ a = Ok self ->
  WordlistGenerator.__init__ (with_resume a)
  = Ok (generator_of (with_resume a) (WordlistGenerator.total_combinations self)).
Proof.
  intros Hinit. unfold WordlistGenerator.__init__ in *.
  change (WordlistGenerator.validate_args (with_resume a))
    with (WordlistGenerator.validate_args a).
  change (WordlistGenerator._estimate_combinations (with_resume a))
    with (WordlistGenerator._estimate_combinations a).
  destruct (WordlistGenerator.validate_args a); [|discriminate..].
  cbn [mbind outcome_bind] in *.
  destruct (WordlistGenerator._estimate_combinations a); [|discriminate..].
  cbn [mbind outcome_bind] in *. injection Hinit as <-. reflexivity.
Qed.

Lemma main_interrupted (a : Namespace) (self : WordlistGenerator.t) (k : nat)
    (fs : FS) (ws : list (list ascii)) :
  let start_count := WordlistGenerator._get_start_point self fs in
  let lim := WordlistGenerator.effective_limit
               (limit a) (WordlistGenerator.total_combinations self) in
  WordlistGenerator.__init__ a = Ok self ->
  enumerator a = Ok (itertools.Iter ws (Ok tt)) ->
  within_limits a (WordlistGenerator.total_combinations self) = true ->
  0 <= start_count <= sys_maxsize ->
  Z.of_nat k <= Z.max 0 (lim - start_count) ->
  exists fs',
    main a (Some k) fs = (fs', Raise (SystemExit 0))
    /\ fs' !! output a
       = Some (opened (output a) (0 <? start_count) fs
               +:+ lines a (take k (drop (Z.to_nat start_count) ws)))
    /\ fs' !! (output a +:+ ".session")
       = Some (numeral (start_count + Z.of_nat k)).
Proof.
  intros start_count lim Hinit Hg Hin Hs Hk.
  destruct (init_facts a self Hinit) as (ws' & Hself & Hg').
  assert (ws' = ws) by congruence. subst ws'.
  assert (Hne : WordlistGenerator.session_file self
                <> output (WordlistGenerator.args self)).
  { rewrite Hself. apply session_file_ne. }
  assert (Hle := effective_limit_le (limit a)
                   (WordlistGenerator.total_combinations self)).
  fold lim in Hle.
  assert (Htot : WordlistGenerator.total_combinations self = Z.of_nat (length ws))
    by (rewrite Hself; reflexivity).
  destruct (run_generation_interrupted self Hne ws k fs) as (fs' & Hrun & Hout & Hsess).
  - rewrite Hself. exact Hg.
  - rewrite Hself at 1. exact Hin.
  - exact Hs.
  - rewrite length_drop. fold start_count lim in Hk |- *. lia.
  - replace (limit (WordlistGenerator.args self)) with (limit a)
      by (rewrite Hself; reflexivity).
    exact Hk.
  - exists fs'. rewrite (main_runs a self (Some k) fs Hinit).
    split; [exact Hrun|].
    assert (Hargs : WordlistGenerator.args self = a)
      by (rewrite Hself; reflexivity).
    assert (Hfile : WordlistGenerator.session_file self = output a +:+ ".session")
      by (rewrite Hself; reflexivity).
    rewrite Hargs in Hout. rewrite Hfile in Hsess.
    split; assumption.
Qed.

Lemma main_quiet (a : Namespace) (self : WordlistGenerator.t) (fs : FS)
    (ws : list (list ascii)) :
  let start_count := WordlistGenerator._get_start_point self fs in
  let lim := WordlistGenerator.effective_limit
               (limit a) (WordlistGenerator.total_combinations self) in
  WordlistGenerator.__init__ a = Ok self ->
  enumerator a = Ok (itertools.Iter ws (Ok tt)) ->
  within_limits a (WordlistGenerator.total_combinations self) = true ->
  0 <= start_count <= sys_maxsize ->
  exists fs',
    main a None fs = (fs', Ok tt)
    /\ fs' !! output a
       = Some (opened (output a) (0 <? start_count) fs
               +:+ lines a (take (Z.to_nat (lim - start_count))
                                 (drop (Z.to_nat start_count) ws)))
    /\ fs' !! (output a +:+ ".session") = None.
Proof.
  intros start_count lim Hinit Hg Hin Hs.
  destruct (init_inv a self Hinit) as (Hself & _).
  assert (Hargs : WordlistGenerator.args self = a)
    by (rewrite Hself; reflexivity).
  assert (Hfile : WordlistGenerator.session_file self = output a +:+ ".session")
    by (rewrite Hself; reflexivity).
  assert (Hne : WordlistGenerator.session_file self
                <> output (WordlistGenerator.args self)).
  { rewrite Hfile, Hargs. apply session_file_ne. }
  destruct (run_generation_quiet self Hne ws fs) as (fs' & Hrun & Hout & Hgone).
  { rewrite Hargs. exact Hg. }
  { rewrite Hargs. exact Hin. }
  { exact Hs. }
  rewrite Hargs in Hout. rewrite Hfile in Hgone.
  exists fs'. rewrite (main_runs a self None fs Hinit). auto.
Qed.

(** X8.  An interrupt that arrives when the run has handled [k] words
    (and the loop has not ended before) pauses it: the program exits with
    code 0, the word list holds what [open] left followed by exactly those
    [k] words, and the session record holds the start offset plus [k].
    The run is one within the limits of the interpreter: the size and the
    limit are in the float range, the start offset is at most
    [sys.maxsize]. *)
Theorem X8_interrupt_pauses (a : Namespace) (self : WordlistGenerator.t) (k : nat)
    (fs : FS) :
  let start_count := WordlistGenerator._get_start_point self fs in
  let lim := WordlistGenerator.effective_limit
               (limit a) (WordlistGenerator.total_combinations self) in
  WordlistGenerator.__init__ a = Ok self ->
  within_limits a (WordlistGenerator.total_combinations self) = true ->
  0 <= start_count <= sys_maxsize ->
  Z.of_nat k <= Z.max 0 (lim - start_count) ->
  exists g fs',
    enumerator a = Ok g
    /\ main a (Some k) fs = (fs', Raise (SystemExit 0))
    /\ terminal_state (snd (main a (Some k) fs)) = Some Paused
    /\ exit_code (snd (main a (Some k) fs)) = Some 0
    /\ fs' !! output a
       = Some (opened (output a) (0 <? start_count) fs
               +:+ lines a (take k (drop (Z.to_nat start_count)
                                         (itertools.items g))))
    /\ fs' !! (output a +:+ ".session")
       = Some (numeral (start_count + Z.of_nat k)).
Proof.
  intros start_count lim Hinit Hin Hs Hk.
  destruct (init_facts a self Hinit) as (ws & _ & Hg).
  destruct (main_interrupted a self k fs ws Hinit Hg Hin Hs Hk)
    as (fs' & Hrun & Hout & Hsess).
  exists (itertools.Iter ws (Ok tt)), fs'. rewrite Hrun.
  cbn [snd itertools.items]. repeat split; assumption.
Qed.

Lemma X8_interrupt_pauses_witness :
  exists g fs',
    enumerator hundred_limit_three = Ok g
    /\ main hundred_limit_three (Some 2%nat) ∅ = (fs', Raise (SystemExit 0))
    /\ terminal_state (snd (main hundred_limit_three (Some 2%nat) ∅)) = Some Paused
    /\ exit_code (snd (main hundred_limit_three (Some 2%nat) ∅)) = Some 0
    /\ fs' !! "wordlist.txt"
       = Some (opened "wordlist.txt" (0 <? 0) ∅
               +:+ lines hundred_limit_three
                         (take 2 (drop (Z.to_nat 0) (itertools.items g))))
    /\ fs' !! ("wordlist.txt" +:+ ".session") = Some (numeral (0 + Z.of_nat 2)).
Proof.
  apply (X8_interrupt_pauses hundred_limit_three
           (generator_of hundred_limit_three 100) 2 ∅);
    [ reflexivity | vm_compute; reflexivity
    | vm_compute; split; discriminate | cbn; lia ].
Defined.

(** X9.  Pausing and resuming changes nothing in the result: a run
    interrupted after [k] words and then run again with [--resume] leaves
    the word list that the uninterrupted run would have left, and no
    session record.  The runs are within the limits of the interpreter:
    the size and the limit are in the float range, and the offset at
    which the run is resumed is at most [sys.maxsize]. *)
Theorem X9_pause_then_resume (a : Namespace) (self : WordlistGenerator.t) (k : nat)
    (fs : FS) :
  let start_count := WordlistGenerator._get_start_point self fs in
  let lim := WordlistGenerator.effective_limit
               (limit a) (WordlistGenerator.total_combinations self) in
  WordlistGenerator.__init__ a = Ok self ->
  within_limits a (WordlistGenerator.total_combinations self) = true ->
  0 <= start_count ->
  start_count + Z.of_nat k <= sys_maxsize ->
  Z.of_nat k <= Z.max 0 (lim - start_count) ->
  let paused := main a (Some k) fs in
  let resumed := main (with_resume a) None (fst paused) in
  snd paused = Raise (SystemExit 0)
  /\ snd resumed = Ok tt
  /\ fst resumed !! output a = fst (main a None fs) !! output a
  /\ fst resumed !! (output a +:+ ".session") = None.
Proof.
  intros start_count lim Hinit Hin Hs0 Hmax Hk paused resumed.
  assert (Hs : 0 <= start_count <= sys_maxsize) by lia.
  destruct (init_facts a self Hinit) as (ws & Hself & Hg).
  destruct (main_interrupted a self k fs ws Hinit Hg Hin Hs Hk)
    as (fs1 & Hrun1 & Hout1 & Hsess1).
  fold start_count in Hout1, Hsess1.
  destruct (main_quiet a self fs ws Hinit Hg Hin Hs) as (fs0 & Hrun0 & Hout0 & _).
  fold start_count lim in Hout0.
  set (self' := generator_of (with_resume a)
                  (WordlistGenerator.total_combinations self)).
  assert (Hinit' := init_with_resume a self Hinit). fold self' in Hinit'.
  assert (Hstart' : WordlistGenerator._get_start_point self' fs1
                    = start_count + Z.of_nat k).
  { apply get_start_point_numeral;
      [ lia | apply str_ok_maxsize; lia | reflexivity | exact Hsess1 ]. }
  destruct (main_quiet (with_resume a) self' fs1 ws Hinit' Hg)
    as (fs2 & Hrun2 & Hout2 & Hgone2).
  { exact Hin. }
  { rewrite Hstart'. lia. }
  rewrite Hstart' in Hout2.
  change (output (with_resume a)) with (output a) in Hout2, Hgone2.
  change (lines (with_resume a)) with (lines a) in Hout2.
  change (WordlistGenerator.effective_limit (limit (with_resume a))
            (WordlistGenerator.total_combinations self')) with lim in Hout2.
  subst resumed paused. rewrite Hrun1. cbn [fst snd].
  rewrite Hrun2, Hrun0. cbn [fst snd].
  split; [reflexivity|]. split; [reflexivity|]. split; [|exact Hgone2].
  rewrite Hout2, Hout0. f_equal.
  destruct (Z.ltb_spec 0 (start_count + Z.of_nat k)) as [Hpos|Hzero].
  - unfold opened at 1. rewrite Hout1. cbn [default from_option id].
    rewrite append_assoc, <- lines_app. do 2 f_equal.
    replace (Z.to_nat (start_count + Z.of_nat k))
      with (Z.to_nat start_count + k)%nat by lia.
    rewrite <- drop_drop.
    replace (Z.to_nat (lim - start_count))
      with (k + Z.to_nat (lim - (start_count + Z.of_nat k)))%nat by lia.
    apply take_take_drop.
  - assert (start_count = 0) by lia. assert (k = O) by lia. subst k.
    replace (start_count + Z.of_nat 0) with start_count by lia.
    replace (0 <? start_count) with false by (symmetry; apply Z.ltb_ge; lia).
    reflexivity.
Qed.

Lemma X9_pause_then_resume_witness :
  snd (main hundred_limit_three (Some 2%nat) ∅) = Raise (SystemExit 0)
  /\ snd (main (with_resume hundred_limit_three) None
            (fst (main hundred_limit_three (Some 2%nat) ∅))) = Ok tt
  /\ fst (main (with_resume hundred_limit_three) None
            (fst (main hundred_limit_three (Some 2%nat) ∅))) !! "wordlist.txt"
     = fst (main hundred_limit_three None ∅) !! "wordlist.txt"
  /\ fst (main (with_resume hundred_limit_three) None
            (fst (main hundred_limit_three (Some 2%nat) ∅)))
     !! ("wordlist.txt" +:+ ".session") = None.
Proof.
  apply (X9_pause_then_resume hundred_limit_three
           (generator_of hundred_limit_three 100) 2 ∅);
    [ reflexivity | vm_compute; reflexivity | cbn; lia
    | vm_compute; discriminate | cbn; lia ].
Defined.

(** ** Runs from the beginning *)

(** X10.  Lengths in the wrong order end the program with exit code 1
    before anything is written, in every mode: also when a pattern or a
    permutations string makes the lengths otherwise irrelevant. *)
Theorem X10_lengths_out_of_order (a : Namespace) (lo hi : Z) (sigint : option nat)
    (fs : FS) :
  min_len a = Some lo -> max_len a = Some hi -> hi < lo ->
  main a sigint fs = (fs, Raise (SystemExit 1))
  /\ exit_code (snd (main a sigint fs)) = Some 1.
Proof.
  intros Hlo Hhi Hlt.
  assert (Hmain : main a sigint fs = (fs, Raise (SystemExit 1))).
  { unfold main, WordlistGenerator.__init__, WordlistGenerator.validate_args.
    rewrite Hlo, Hhi.
    rewrite !bool_decide_eq_true_2 by eauto. rewrite andb_false_r.
    destruct (Z.ltb_spec hi lo); [reflexivity|lia]. }
  rewrite Hmain. split; reflexivity.
Qed.

Lemma X10_lengths_out_of_order_witness :
  main (permutations_args (Some 5) (Some 3) "ab") None ∅
  = (∅, Raise (SystemExit 1))
  /\ exit_code (snd (main (permutations_args (Some 5) (Some 3) "ab") None ∅))
     = Some 1.
Proof.
  apply (X10_lengths_out_of_order (permutations_args (Some 5) (Some 3) "ab") 5 3);
    [reflexivity|reflexivity|lia].
Defined.

(** X11.  A run that starts at offset 0 (no [--resume], or no usable
    session record) and is not interrupted discards whatever the word
    list held: afterwards the file consists of the first [lim] words of
    the enumeration and nothing else, [lim] being the effective limit --
    all the words when no limit is given or the limit is not below the
    size, none when the limit is negative -- and there is no session
    record.  The size and the limit are within the limits of the
    interpreter (the float range). *)
Theorem X11_fresh_run (a : Namespace) (self : WordlistGenerator.t) (fs : FS) :
  let lim := WordlistGenerator.effective_limit
               (limit a) (WordlistGenerator.total_combinations self) in
  WordlistGenerator.__init__ a = Ok self ->
  within_limits a (WordlistGenerator.total_combinations self) = true ->
  WordlistGenerator._get_start_point self fs = 0 ->
  exists g fs',
    enumerator a = Ok g
    /\ main a None fs = (fs', Ok tt)
    /\ fs' !! output a = Some (lines a (take (Z.to_nat lim) (itertools.items g)))
    /\ fs' !! (output a +:+ ".session") = None
    /\ (limit a = None \/
        (exists l, limit a = Some l
                   /\ WordlistGenerator.total_combinations self <= l) ->
        take (Z.to_nat lim) (itertools.items g) = itertools.items g)
    /\ ((exists l, limit a = Some l /\ l < 0) ->
        take (Z.to_nat lim) (itertools.items g) = []).
Proof.
  intros lim Hinit Hin Hstart.
  destruct (init_facts a self Hinit) as (ws & Hself & Hg).
  destruct (main_quiet a self fs ws Hinit Hg Hin) as (fs' & Hrun & Hout & Hgone);
    [rewrite Hstart; vm_compute; split; discriminate|].
  rewrite Hstart in Hout. fold lim in Hout.
  rewrite Z.sub_0_r, drop_0 in Hout.
  exists (itertools.Iter ws (Ok tt)), fs'. cbn [itertools.items].
  assert (Htot : WordlistGenerator.total_combinations self = Z.of_nat (length ws))
    by (rewrite Hself; reflexivity).
  split; [exact Hg|]. split; [exact Hrun|]. split; [exact Hout|].
  split; [exact Hgone|]. split.
  - intros Hall. apply take_ge.
    assert (lim = WordlistGenerator.total_combinations self); [|lia].
    unfold lim, WordlistGenerator.effective_limit.
    destruct Hall as [Hf|(l & Hl & Hge)].
    + rewrite Hf. reflexivity.
    + rewrite Hl. cbn [default from_option id].
      destruct (Z.ltb_spec l (WordlistGenerator.total_combinations self));
        [lia|]. rewrite andb_false_r. reflexivity.
  - intros (l & Hl & Hneg).
    assert (lim = l).
    { unfold lim. rewrite Hl, effective_limit_supplied by lia. lia. }
    replace (Z.to_nat lim) with O by lia. reflexivity.
Qed.

Lemma X11_fresh_run_witness :
  exists g fs',
    enumerator hundred_limit_three = Ok g
    /\ main hundred_limit_three None {["wordlist.txt" := "old"]} = (fs', Ok tt)
    /\ fs' !! "wordlist.txt"
       = Some (lines hundred_limit_three
                 (take (Z.to_nat (WordlistGenerator.effective_limit (Some 3) 100))
                       (itertools.items g)))
    /\ fs' !! ("wordlist.txt" +:+ ".session") = None
    /\ (Some 3 = None \/
        (exists l, Some 3 = Some l /\ 100 <= l) ->
        take (Z.to_nat (WordlistGenerator.effective_limit (Some 3) 100))
             (itertools.items g) = itertools.items g)
    /\ ((exists l, Some 3 = Some l /\ l < 0) ->
        take (Z.to_nat (WordlistGenerator.effective_limit (Some 3) 100))
             (itertools.items g) = []).
Proof.
  apply (X11_fresh_run hundred_limit_three
           (generator_of hundred_limit_three 100) {["wordlist.txt" := "old"]});
    [reflexivity | vm_compute; reflexivity | reflexivity].
Defined.

(** X12.  A pattern that repeats one symbol [k] times enumerates what the
    range mode enumerates for words of length [k] over that symbol's
    class, in the same order: the successive states of a counter. *)
Theorem X12_uniform_pattern (a : Namespace) (c : ascii) (k : nat) :
  truthy_str (permutations a) = false ->
  pattern a = Some (string_of_list_ascii (repeat c (S k))) ->
  enumerator a
  = Ok (itertools.Iter (counter_block (CHARSET_MAP_get c) (S k)) (Ok tt))
  /\ enumerator a
     = enumerator (range_args (Z.of_nat (S k)) (Z.of_nat (S k))
                              (string_of_list_ascii (CHARSET_MAP_get c))).
Proof.
  intros Hperm Hp.
  assert (Hpat : enumerator a
    = Ok (itertools.Iter (counter_block (CHARSET_MAP_get c) (S k)) (Ok tt))).
  { unfold enumerator, WordlistGenerator.combinations_generator.
    rewrite Hperm, Hp. cbn [truthy_str repeat string_of_list_ascii].
    cbn [default from_option id]. unfold chars.
    change (String c (string_of_list_ascii (repeat c k)))
      with (string_of_list_ascii (repeat c (S k))).
    rewrite list_ascii_of_string_of_list_ascii, map_repeat.
    rewrite product_repeat_counter. reflexivity. }
  split; [exact Hpat|]. rewrite Hpat. symmetry.
  rewrite (range_enumerator _ (Z.of_nat (S k)) (Z.of_nat (S k)));
    [|reflexivity..|lia].
  cbn [charset range_args]. unfold chars.
  rewrite list_ascii_of_string_of_list_ascii.
  replace (Z.to_nat (Z.of_nat (S k) - Z.of_nat (S k) + 1)) with 1%nat by lia.
  rewrite Nat2Z.id. cbn [seq flat_map]. rewrite app_nil_r. reflexivity.
Qed.

Lemma X12_uniform_pattern_witness :
  enumerator (pattern_args "%%%%")
  = Ok (itertools.Iter (counter_block (CHARSET_MAP_get "%") 4) (Ok tt))
  /\ enumerator (pattern_args "%%%%")
     = enumerator (range_args (Z.of_nat 4) (Z.of_nat 4)
                              (string_of_list_ascii (CHARSET_MAP_get "%"))).
Proof.
  apply (X12_uniform_pattern (pattern_args "%%%%") "%" 3); reflexivity.
Defined.

Section Agreement.
Variables s1 s2 : WordlistGenerator.t.
Hypothesis Hout :
  output (WordlistGenerator.args s1) = output (WordlistGenerator.args s2).
Hypothesis Hsess :
  WordlistGenerator.session_file s1 = WordlistGenerator.session_file s2.
Hypothesis Hrender : forall w,
  WordlistGenerator.render (WordlistGenerator.args s1) w
  = WordlistGenerator.render (WordlistGenerator.args s2) w.

(** The loop looks at the object only for the two paths and the shape of
    a line. *)
Lemma write_loop_agree (limit : Z) (ws : list (list ascii)) (fin : outcome unit) :
  forall (count : Z) (sigint : option nat) (fs : FS),
    WordlistGenerator.write_loop s1 limit ws fin count sigint fs
    = WordlistGenerator.write_loop s2 limit ws fin count sigint fs.
Proof.
  assert (Hsave : forall c fs,
            WordlistGenerator._save_progress s1 c fs
            = WordlistGenerator._save_progress s2 c fs).
  { intros c fs. unfold WordlistGenerator._save_progress. rewrite Hsess.
    reflexivity. }
  induction ws as [|w ws IH]; intros count sigint fs.
  - destruct sigint as [[|k]|]; cbn [WordlistGenerator.write_loop];
      rewrite ?Hsave; reflexivity.
  - destruct sigint as [[|k]|]; cbn [WordlistGenerator.write_loop];
      rewrite ?Hsave; try reflexivity;
      (destruct (limit <=? count); [reflexivity|]);
      rewrite ?Hout, ?Hrender, ?Hsave;
      (destruct (if _ =? 0 then _ else _) as [fs' r]);
      (destruct r as [[]|e|]; [apply IH|reflexivity..]).
Qed.

Lemma write_to_file_agree (g : itertools.iter (list ascii)) (start_count limit : Z)
    (sigint : option nat) (fs : FS) :
  WordlistGenerator._write_to_file s1 g start_count limit sigint fs
  = WordlistGenerator._write_to_file s2 g start_count limit sigint fs.
Proof.
  unfold WordlistGenerator._write_to_file. rewrite Hout.
  destruct (if 0 <? start_count then _ else _); [|reflexivity..].
  apply write_loop_agree.
Qed.

Lemma run_generation_agree (sigint : option nat) (fs : FS) :
  WordlistGenerator._get_start_point s1 fs
  = WordlistGenerator._get_start_point s2 fs ->
  limit (WordlistGenerator.args s1) = limit (WordlistGenerator.args s2) ->
  WordlistGenerator.total_combinations s1
  = WordlistGenerator.total_combinations s2 ->
  permutations (WordlistGenerator.args s1)
  = permutations (WordlistGenerator.args s2) ->
  WordlistGenerator.combinations_generator (WordlistGenerator.args s1)
  = WordlistGenerator.combinations_generator (WordlistGenerator.args s2) ->
  WordlistGenerator.run_generation s1 sigint fs
  = WordlistGenerator.run_generation s2 sigint fs.
Proof.
  intros Hstart Hlim Htot Hperm Hcomb.
  unfold WordlistGenerator.run_generation,
    WordlistGenerator._generate_permutations,
    WordlistGenerator._generate_combinations,
    WordlistGenerator.permutations_generator.
  rewrite Hstart, Hlim, Htot, Hperm, Hcomb, Hsess.
  destruct (WordlistGenerator.announce _ _); [|reflexivity..].
  destruct (truthy_str _).
  - rewrite write_to_file_agree. reflexivity.
  - destruct (WordlistGenerator.combinations_generator (WordlistGenerator.args s2));
      [|reflexivity..].
    rewrite write_to_file_agree. reflexivity.
Qed.

End Agreement.

Lemma main_resume_irrelevant (a : Namespace) (sigint : option nat) (fs : FS) :
  (forall total,
     WordlistGenerator._get_start_point (generator_of (with_resume a) total) fs = 0) ->
  main (with_resume a) sigint fs = main (without_resume a) sigint fs.
Proof.
  intros Hstart. unfold main.
  change (permutations (with_resume a)) with (permutations a).
  change (permutations (without_resume a)) with (permutations a).
  change (min_len (with_resume a)) with (min_len a).
  change (min_len (without_resume a)) with (min_len a).
  change (max_len (with_resume a)) with (max_len a).
  change (max_len (without_resume a)) with (max_len a).
  destruct (negb _ && _); [reflexivity|].
  unfold WordlistGenerator.__init__.
  change (WordlistGenerator.validate_args (with_resume a))
    with (WordlistGenerator.validate_args a).
  change (WordlistGenerator.validate_args (without_resume a))
    with (WordlistGenerator.validate_args a).
  change (WordlistGenerator._estimate_combinations (with_resume a))
    with (WordlistGenerator._estimate_combinations a).
  change (WordlistGenerator._estimate_combinations (without_resume a))
    with (WordlistGenerator._estimate_combinations a).
  destruct (WordlistGenerator.validate_args a); [|reflexivity..].
  cbn [mbind outcome_bind].
  destruct (WordlistGenerator._estimate_combinations a) as [total| |];
    [|reflexivity..].
  cbn [mbind outcome_bind].
  change (WordlistGenerator.run_generation (generator_of (with_resume a) total)
            sigint fs
          = WordlistGenerator.run_generation (generator_of (without_resume a) total)
              sigint fs).
  apply run_generation_agree; try reflexivity.
  rewrite Hstart. reflexivity.
Qed.

(** X13.  With [--resume], a session record that is missing or does not
    hold a number makes no difference: the run is, in files and outcome,
    the run without [--resume], which starts over from the first word. *)
Theorem X13_unreadable_session_starts_over (a : Namespace) (sigint : option nat)
    (fs : FS) :
  (forall content,
     fs !! (output a +:+ ".session") = Some content ->
     py_int (py_strip content) = None) ->
  main (with_resume a) sigint fs = main (without_resume a) sigint fs.
Proof.
  intros Hbad. apply main_resume_irrelevant. intros total.
  unfold WordlistGenerator._get_start_point.
  cbn [generator_of WordlistGenerator.args WordlistGenerator.session_file
       with_resume resume output].
  destruct (fs !! (output a +:+ ".session")) as [content|] eqn:E;
    [|reflexivity].
  rewrite (Hbad content eq_refl). reflexivity.
Qed.

Lemma X13_unreadable_session_starts_over_witness :
  main (with_resume hundred_limit_three) None
       {["wordlist.txt.session" := "12 words"]}
  = main (without_resume hundred_limit_three) None
         {["wordlist.txt.session" := "12 words"]}.
Proof.
  apply (X13_unreadable_session_starts_over hundred_limit_three None
           {["wordlist.txt.session" := "12 words"]}).
  intros content H.
  change (({["wordlist.txt.session" := "12 words"]} : FS)
            !! "wordlist.txt.session" = Some content) in H.
  rewrite lookup_singleton_eq in H. injection H as <-. reflexivity.
Defined.

(** ** Reading the session record *)

Lemma lstrip_spaces (pre s : string) :
  all_space pre = true -> lstrip (pre +:+ s) = lstrip s.
Proof.
  induction pre as [|c pre IH]; intros H; [reflexivity|].
  cbn [all_space] in H. apply andb_true_iff in H. destruct H as [Hc Hpre].
  change (String c pre +:+ s) with (String c (pre +:+ s)).
  cbn [lstrip]. rewrite Hc. apply IH, Hpre.
Qed.

Lemma rstrip_all_space (post : string) :
  all_space post = true -> rstrip post = "".
Proof.
  induction post as [|c post IH]; intros H; [reflexivity|].
  cbn [all_space] in H. apply andb_true_iff in H. destruct H as [Hc Hpost].
  cbn [rstrip]. rewrite (IH Hpost), Hc. reflexivity.
Qed.

Lemma rstrip_spaces (s post : string) :
  all_space post = true -> rstrip (s +:+ post) = rstrip s.
Proof.
  intros H. induction s as [|c s IH].
  - apply rstrip_all_space, H.
  - change (String c s +:+ post) with (String c (s +:+ post)).
    cbn [rstrip]. rewrite IH. reflexivity.
Qed.

(** A printed integer starts with a character that is not white space,
    and stripping leaves it alone. *)
Lemma numeral_shape (c : Z) :
  (exists ch rest, numeral c = String ch rest /\ is_space ch = false)
  /\ rstrip (numeral c) = numeral c.
Proof.
  destruct c as [|p|p].
  - split; [exists "0"%char, ""; split; reflexivity | reflexivity].
  - unfold numeral. cbn [Z.to_int NilZero.string_of_int].
    assert (Hnil := DecimalPos.Unsigned.to_uint_nonnil p).
    assert (E : NilZero.string_of_uint (Pos.to_uint p)
                = NilEmpty.string_of_uint (Pos.to_uint p)).
    { unfold NilZero.string_of_uint. destruct (Pos.to_uint p); congruence. }
    rewrite E. split; [|apply rstrip_uint].
    destruct (Pos.to_uint p); [congruence|..];
      cbn [NilEmpty.string_of_uint]; eexists _, _; split; reflexivity.
  - unfold numeral. cbn [Z.to_int NilZero.string_of_int].
    assert (Hnil := DecimalPos.Unsigned.to_uint_nonnil p).
    assert (E : NilZero.string_of_uint (Pos.to_uint p)
                = NilEmpty.string_of_uint (Pos.to_uint p)).
    { unfold NilZero.string_of_uint. destruct (Pos.to_uint p); congruence. }
    rewrite E. split; [eexists _, _; split; reflexivity|].
    cbn [rstrip]. rewrite rstrip_uint.
    destruct (Pos.to_uint p); [congruence|..]; reflexivity.
Qed.

Lemma py_strip_padded (c : Z) (pre post : string) :
  all_space pre = true -> all_space post = true ->
  py_strip (pre +:+ numeral c +:+ post) = numeral c.
Proof.
  intros Hpre Hpost. unfold py_strip.
  rewrite lstrip_spaces by exact Hpre.
  destruct (numeral_shape c) as [(ch & rest & E & Hch) Hr].
  assert (Hl : lstrip (numeral c +:+ post) = numeral c +:+ post).
  { rewrite E. change (String ch rest +:+ post) with (String ch (rest +:+ post)).
    cbn [lstrip]. rewrite Hch. reflexivity. }
  rewrite Hl, rstrip_spaces by exact Hpost. exact Hr.
Qed.

Lemma py_strip_numeral (c : Z) : py_strip (numeral c) = numeral c.
Proof.
  assert (H := py_strip_padded c "" "" eq_refl eq_refl).
  change ("" +:+ numeral c +:+ "") with (numeral c +:+ "") in H.
  rewrite append_nil_r in H. exact H.
Qed.

(** [int(str(c))] is [c] for every integer that [str] writes out. *)
Lemma py_int_numeral (c : Z) : str_ok c = true -> py_int (numeral c) = Some c.
Proof.
  intros Hok.
  destruct (Z.le_gt_cases 0 c) as [Hc|Hc]; [apply py_int_str; assumption|].
  destruct c as [|p|p]; try lia.
  unfold py_int.
  rewrite py_strip_numeral.
  unfold numeral. cbn [Z.to_int NilZero.string_of_int].
  assert (Hnil := DecimalPos.Unsigned.to_uint_nonnil p).
  assert (E : NilZero.string_of_uint (Pos.to_uint p)
              = NilEmpty.string_of_uint (Pos.to_uint p)).
  { unfold NilZero.string_of_uint. destruct (Pos.to_uint p); congruence. }
  rewrite E.
  change (count_digits (String "-" (NilEmpty.string_of_uint (Pos.to_uint p))))
    with (count_digits (NilEmpty.string_of_uint (Pos.to_uint p))).
  rewrite count_digits_uint.
  unfold str_ok in Hok. cbn [decimal_digits] in Hok. apply Z.leb_le in Hok.
  destruct (Z.ltb_spec int_max_str_digits
              (Z.of_nat (nb_digits (Pos.to_uint p)))); [lia|].
  rewrite parse_digits_uint by (left; exact Hnil).
  rewrite uint_value_0, DecimalPos.Unsigned.of_to. reflexivity.
Qed.

(** The offset that [_get_start_point] returns is one whose message, at
    line 67, was printed. *)
Lemma get_start_point_str_ok (self : WordlistGenerator.t) (fs : FS) :
  str_ok (WordlistGenerator._get_start_point self fs) = true.
Proof.
  unfold WordlistGenerator._get_start_point.
  destruct (resume _); [|apply str_ok_0].
  destruct (fs !! _); [|apply str_ok_0].
  destruct (py_int _) as [c|]; [|apply str_ok_0].
  unfold py_str. destruct (str_ok c) eqn:E; [exact E|apply str_ok_0].
Qed.

(** X14.  The resume offset is read through white space: a session record
    that holds the printed count with blanks, tabs or line ends around it
    (an edited file, a trailing newline) gives that count, for every
    integer count, negative ones included, that the interpreter converts
    (one of at most 4300 digits). *)
Theorem X14_session_read_through_white_space (self : WordlistGenerator.t) (c : Z)
    (pre post : string) (fs : FS) :
  resume (WordlistGenerator.args self) = true ->
  str_ok c = true ->
  all_space pre = true -> all_space post = true ->
  fs !! WordlistGenerator.session_file self = Some (pre +:+ numeral c +:+ post) ->
  WordlistGenerator._get_start_point self fs = c.
Proof.
  intros Hres Hok Hpre Hpost Hfile.
  unfold WordlistGenerator._get_start_point.
  rewrite Hres, Hfile, py_strip_padded, py_int_numeral by assumption.
  unfold py_str. rewrite Hok. reflexivity.
Qed.

Lemma X14_session_read_through_white_space_witness :
  WordlistGenerator._get_start_point resuming_generator
    {["wordlist.txt.session" := " " +:+ numeral 20000 +:+ newline]}
  = 20000.
Proof.
  apply (X14_session_read_through_white_space resuming_generator 20000
           " " newline); reflexivity.
Defined.

(** ** The periodic save *)

(** Linear arithmetic with quotients and remainders by constants. *)
Ltac euclid := Z.to_euclidean_division_equations; lia.

Section Checkpoint.
Variable self : WordlistGenerator.t.
Hypothesis Hne : WordlistGenerator.session_file self <> output (WordlistGenerator.args self).

Local Abbreviation sess := (WordlistGenerator.session_file self).

Lemma write_loop_checkpoint (limit : Z) (fin : outcome unit)
    (ws : list (list ascii)) :
  str_ok limit = true ->
  forall (count : Z) (fs : FS),
    str_ok count = true ->
    fst (WordlistGenerator.write_loop self limit ws fin count None fs) !! sess
    = match last_checkpoint count
              (count + Z.of_nat (length (take (Z.to_nat (limit - count)) ws)))
      with
      | Some m => Some (numeral m)
      | None => fs !! sess
      end.
Proof.
  intros Hlim.
  assert (Hnone : forall count, last_checkpoint count (count + 0) = None).
  { intros count. unfold last_checkpoint.
    destruct (Z.ltb_spec count ((count + 0) / 10000 * 10000));
      [euclid|reflexivity]. }
  induction ws as [|w ws IH]; intros count fs Hcount.
  - rewrite take_nil. cbn [length Z.of_nat WordlistGenerator.write_loop fst].
    rewrite Hnone. reflexivity.
  - cbn [WordlistGenerator.write_loop].
    destruct (Z.leb_spec limit count) as [Hle|Hlt].
    + replace (Z.to_nat (limit - count)) with O by lia.
      cbn [take length Z.of_nat fst]. rewrite Hnone. reflexivity.
    + assert (Hnext : str_ok (count + 1) = true)
        by (apply (str_ok_between count limit); [assumption..|lia]).
      rewrite (save_progress_ok self (count + 1) _ Hnext).
      set (fs1 := WordlistGenerator.fwrite _ _ fs).
      assert (H1 : fs1 !! sess = fs !! sess)
        by (unfold fs1, WordlistGenerator.fwrite;
            apply lookup_insert_ne; congruence).
      replace (Z.to_nat (limit - count))
        with (S (Z.to_nat (limit - (count + 1)))) by lia.
      cbn [take length].
      set (j := length (take (Z.to_nat (limit - (count + 1))) ws)).
      replace (count + Z.of_nat (S j)) with (count + 1 + Z.of_nat j) by lia.
      destruct (Z.eqb_spec ((count + 1) mod 10000) 0) as [Hmod|Hmod];
        cbv beta iota; rewrite (IH _ _ Hnext); fold j;
        unfold last_checkpoint;
        set (final := count + 1 + Z.of_nat j);
        assert (Hfinal : count + 1 <= final) by (unfold final; lia);
        destruct (Z.ltb_spec (count + 1) (final / 10000 * 10000)) as [H2|H2];
        destruct (Z.ltb_spec count (final / 10000 * 10000)) as [H3|H3];
        try reflexivity; try euclid.
      * assert (Hm : final / 10000 * 10000 = count + 1) by euclid.
        rewrite Hm. apply lookup_insert_eq.
      * exact H1.
Qed.

End Checkpoint.

(** X15.  The periodic save of an uninterrupted pass: when the count has
    passed a multiple of 10000 on the way, the session record holds the
    last such multiple -- never more than the number of words in the
    file -- and otherwise the pass leaves the record as it was.  The
    offset and the limit are within the limits of the interpreter: both
    in the float range, the offset at most [sys.maxsize]. *)
Theorem X15_periodic_save (self : WordlistGenerator.t) (ws : list (list ascii))
    (start_count limit : Z) (fs : FS) :
  WordlistGenerator.session_file self <> output (WordlistGenerator.args self) ->
  float_ok start_count = true -> start_count <= sys_maxsize ->
  float_ok limit = true ->
  let written :=
    length (take (Z.to_nat (limit - start_count))
                 (drop (Z.to_nat start_count) ws)) in
  fst (WordlistGenerator._write_to_file self (itertools.Iter ws (Ok tt))
         start_count limit None fs) !! WordlistGenerator.session_file self
  = match last_checkpoint start_count (start_count + Z.of_nat written) with
    | Some m => Some (numeral m)
    | None => fs !! WordlistGenerator.session_file self
    end
  /\ forall m,
       last_checkpoint start_count (start_count + Z.of_nat written) = Some m ->
       m mod 10000 = 0 /\ start_count < m <= start_count + Z.of_nat written.
Proof.
  intros Hne Hstart Hmax Hfloat written.
  assert (Hs := float_ok_str_ok _ Hstart).
  assert (Hl := float_ok_str_ok _ Hfloat).
  split.
  - assert (Hopen : forall b,
      WordlistGenerator.open_output (output (WordlistGenerator.args self)) b fs
      !! WordlistGenerator.session_file self
      = fs !! WordlistGenerator.session_file self).
    { intros b. unfold WordlistGenerator.open_output.
      destruct b; [destruct (fs !! output _)|]; try reflexivity;
        apply lookup_insert_ne; congruence. }
    unfold WordlistGenerator._write_to_file.
    destruct (Z.ltb_spec 0 start_count) as [Hpos|Hz].
    + rewrite islice_consume_quiet by lia.
      cbn [itertools.items itertools.at_end].
      rewrite (write_loop_checkpoint self Hne) by assumption.
      rewrite Hopen. reflexivity.
    + cbn [itertools.items itertools.at_end].
      rewrite (write_loop_checkpoint self Hne) by assumption.
      rewrite Hopen.
      unfold written. replace (Z.to_nat start_count) with O by lia.
      rewrite drop_0. reflexivity.
  - intros m. unfold last_checkpoint.
    set (final := start_count + Z.of_nat written).
    destruct (Z.ltb_spec start_count (final / 10000 * 10000)); [|discriminate].
    intros [= <-]. split; [apply Z.mod_mul; lia|euclid].
Qed.

Lemma X15_periodic_save_witness :
  fst (WordlistGenerator._write_to_file four_digit_generator
         (itertools.Iter (counter_block (chars digits) 4) (Ok tt))
         0 10000 None ∅) !! "pins.txt.session"
  = match last_checkpoint 0
            (0 + Z.of_nat (length (take (Z.to_nat (10000 - 0))
                                        (drop (Z.to_nat 0)
                                              (counter_block (chars digits) 4)))))
    with
    | Some m => Some (numeral m)
    | None => (∅ : FS) !! "pins.txt.session"
    end
  /\ forall m,
       last_checkpoint 0
         (0 + Z.of_nat (length (take (Z.to_nat (10000 - 0))
                                     (drop (Z.to_nat 0)
                                           (counter_block (chars digits) 4)))))
       = Some m ->
       m mod 10000 = 0
       /\ 0 < m
          <= 0 + Z.of_nat (length (take (Z.to_nat (10000 - 0))
                                        (drop (Z.to_nat 0)
                                              (counter_block (chars digits) 4)))).
Proof.
  apply (X15_periodic_save four_digit_generator (counter_block (chars digits) 4)
           0 10000 ∅);
    [ discriminate | vm_compute; reflexivity | vm_compute; discriminate
    | vm_compute; reflexivity ].
Defined.

(** ** Resume offsets out of the ordinary *)

(** X16.  A session record that holds a negative number is not refused.
    The run then starts over and empties the word list, but it counts
    from that number: it writes [lim - offset] words of the enumeration
    (as far as there are that many), which is more than the effective
    limit [lim].  The size, the limit and the offset are within the
    limits of the interpreter (the float range). *)
Theorem X16_negative_offset (a : Namespace) (self : WordlistGenerator.t) (fs : FS) :
  let start_count := WordlistGenerator._get_start_point self fs in
  let lim := WordlistGenerator.effective_limit
               (limit a) (WordlistGenerator.total_combinations self) in
  WordlistGenerator.__init__ a = Ok self ->
  within_limits a (WordlistGenerator.total_combinations self) = true ->
  start_count < 0 -> float_ok start_count = true ->
  exists g fs',
    enumerator a = Ok g
    /\ main a None fs = (fs', Ok tt)
    /\ fs' !! output a
       = Some (lines a (take (Z.to_nat (lim - start_count)) (itertools.items g)))
    /\ fs' !! (output a +:+ ".session") = None.
Proof.
  intros start_count lim Hinit Hin Hneg Hfloat.
  destruct (within_limits_inv _ _ Hin) as (Hann & _ & Hlim). fold lim in Hlim.
  assert (Hstart := float_ok_str_ok _ Hfloat).
  destruct (init_facts a self Hinit) as (ws & Hself & Hg).
  assert (Hargs : WordlistGenerator.args self = a)
    by (rewrite Hself; reflexivity).
  assert (Hfile : WordlistGenerator.session_file self = output a +:+ ".session")
    by (rewrite Hself; reflexivity).
  assert (Hne : WordlistGenerator.session_file self
                <> output (WordlistGenerator.args self)).
  { rewrite Hfile, Hargs. apply session_file_ne. }
  assert (Hopen := lookup_open_output self false fs).
  destruct (write_loop_quiet self Hne lim ws Hlim start_count _ _ Hstart Hopen)
    as (fs1 & Hloop & Hout1).
  assert (Hwrite :
    WordlistGenerator._write_to_file self (itertools.Iter ws (Ok tt))
      start_count lim None fs = (fs1, Ok tt)).
  { unfold WordlistGenerator._write_to_file.
    replace (0 <? start_count) with false by (symmetry; apply Z.ltb_ge; lia).
    exact Hloop. }
  assert (Hgen :
    (if truthy_str (permutations a)
     then WordlistGenerator._generate_permutations self start_count lim None fs
     else WordlistGenerator._generate_combinations self start_count lim None fs)
    = (fs1, Ok tt)).
  { unfold enumerator in Hg.
    unfold WordlistGenerator._generate_permutations,
      WordlistGenerator._generate_combinations. rewrite Hargs.
    destruct (truthy_str (permutations a)).
    - assert (E : WordlistGenerator.permutations_generator a
                  = itertools.Iter ws (Ok tt)) by congruence.
      rewrite E. exact Hwrite.
    - rewrite Hg. exact Hwrite. }
  exists (itertools.Iter ws (Ok tt)).
  rewrite (main_runs a self None fs Hinit).
  unfold WordlistGenerator.run_generation.
  fold start_count. rewrite Hargs. fold lim. rewrite Hann, Hgen, Hfile.
  change (opened (output (WordlistGenerator.args self)) false fs) with ""
    in Hout1.
  change ("" +:+ ?s) with s in Hout1. rewrite Hargs in Hout1.
  cbn [itertools.items].
  destruct (fs1 !! (output a +:+ ".session")) eqn:E.
  - eexists. split; [exact Hg|]. split; [reflexivity|]. split.
    + rewrite lookup_delete_ne by apply session_file_ne. exact Hout1.
    + apply lookup_delete_eq.
  - exists fs1. auto.
Qed.

Lemma X16_negative_offset_witness :
  exists g fs',
    enumerator (with_resume hundred_limit_three) = Ok g
    /\ main (with_resume hundred_limit_three) None
            {["wordlist.txt.session" := "-2"]} = (fs', Ok tt)
    /\ fs' !! "wordlist.txt"
       = Some (lines (with_resume hundred_limit_three)
                 (take (Z.to_nat (WordlistGenerator.effective_limit (Some 3) 100
                                  - WordlistGenerator._get_start_point
                                      (generator_of (with_resume hundred_limit_three) 100)
                                      {["wordlist.txt.session" := "-2"]}))
                       (itertools.items g)))
    /\ fs' !! ("wordlist.txt" +:+ ".session") = None.
Proof.
  apply (X16_negative_offset (with_resume hundred_limit_three)
           (generator_of (with_resume hundred_limit_three) 100)
           {["wordlist.txt.session" := "-2"]});
    [ reflexivity | vm_compute; reflexivity | vm_compute; reflexivity
    | vm_compute; reflexivity ].
Defined.

(** The run of the witness, computed: limit 3, offset -2, five words. *)
Lemma negative_offset_run :
  fst (main (with_resume hundred_limit_three) None
            {["wordlist.txt.session" := "-2"]}) !! "wordlist.txt"
  = Some (lines hundred_limit_three (map chars ["00"; "01"; "02"; "03"; "04"])).
Proof. vm_compute. reflexivity. Qed.

(** X17.  Resuming at an offset that has already reached the effective
    limit appends nothing: the word list keeps its contents (it is
    created empty if it was missing), the run ends normally and the
    session record is removed.  The run is one within the limits of the
    interpreter: the size and the limit are in the float range, the
    offset is at most [sys.maxsize]. *)
Theorem X17_resume_at_the_end (a : Namespace) (self : WordlistGenerator.t) (fs : FS) :
  let start_count := WordlistGenerator._get_start_point self fs in
  let lim := WordlistGenerator.effective_limit
               (limit a) (WordlistGenerator.total_combinations self) in
  WordlistGenerator.__init__ a = Ok self ->
  within_limits a (WordlistGenerator.total_combinations self) = true ->
  0 < start_count <= sys_maxsize -> lim <= start_count ->
  exists fs',
    main a None fs = (fs', Ok tt)
    /\ fs' !! output a = Some (default "" (fs !! output a))
    /\ fs' !! (output a +:+ ".session") = None.
Proof.
  intros start_count lim Hinit Hin Hpos Hend.
  destruct (init_facts a self Hinit) as (ws & _ & Hg).
  destruct (main_quiet a self fs ws Hinit Hg Hin) as (fs' & Hrun & Hout & Hgone).
  { fold start_count. lia. }
  fold start_count lim in Hout.
  exists fs'. split; [exact Hrun|]. split; [|exact Hgone].
  rewrite Hout.
  replace (Z.to_nat (lim - start_count)) with O by lia.
  replace (0 <? start_count) with true by (symmetry; apply Z.ltb_lt; lia).
  rewrite take_0. cbn [lines fold_right opened]. rewrite append_nil_r.
  reflexivity.
Qed.

Lemma X17_resume_at_the_end_witness :
  exists fs',
    main (with_resume hundred_limit_three) None
         {["wordlist.txt.session" := "3"]} = (fs', Ok tt)
    /\ fs' !! "wordlist.txt"
       = Some (default "" (({["wordlist.txt.session" := "3"]} : FS)
                             !! "wordlist.txt"))
    /\ fs' !! ("wordlist.txt" +:+ ".session") = None.
Proof.
  apply (X17_resume_at_the_end (with_resume hundred_limit_three)
           (generator_of (with_resume hundred_limit_three) 100)
           {["wordlist.txt.session" := "3"]});
    [ reflexivity | vm_compute; reflexivity
    | vm_compute; split; [reflexivity|discriminate]
    | vm_compute; discriminate ].
Defined.

(** ** The size of a pattern *)

Lemma pattern_fold_size (cs : list ascii) (acc : Z) :
  fold_left (fun count c => count * Z.of_nat (length (CHARSET_MAP_get c))) cs acc
  = acc * (26 ^ Z.of_nat (count_occ ascii_dec cs "@"%char)
           * 10 ^ Z.of_nat (count_occ ascii_dec cs "%"%char)
           * 31 ^ Z.of_nat (count_occ ascii_dec cs "^"%char)).
Proof.
  revert acc. induction cs as [|c cs IH]; intros acc.
  - simpl. lia.
  - cbn [fold_left]. rewrite IH.
    destruct (ascii_dec c "@"%char) as [->|H1].
    { rewrite count_occ_cons_eq by reflexivity.
      rewrite !count_occ_cons_neq by discriminate.
      rewrite Nat2Z.inj_succ, Z.pow_succ_r by lia.
      change (Z.of_nat (length (CHARSET_MAP_get "@"))) with 26. lia. }
    destruct (ascii_dec c "%"%char) as [->|H2].
    { rewrite (count_occ_cons_eq _ _ (eq_refl "%"%char)).
      rewrite !count_occ_cons_neq by discriminate.
      rewrite Nat2Z.inj_succ, Z.pow_succ_r by lia.
      change (Z.of_nat (length (CHARSET_MAP_get "%"))) with 10. lia. }
    destruct (ascii_dec c "^"%char) as [->|H3].
    { rewrite (count_occ_cons_eq _ _ (eq_refl "^"%char)).
      rewrite !count_occ_cons_neq by discriminate.
      rewrite Nat2Z.inj_succ, Z.pow_succ_r by lia.
      change (Z.of_nat (length (CHARSET_MAP_get "^"))) with 31. lia. }
    rewrite !count_occ_cons_neq by assumption.
    rewrite CHARSET_MAP_get_literal.
    + simpl length. lia.
    + unfold is_literal.
      apply Ascii.eqb_neq in H1, H2, H3. rewrite H1, H2, H3. reflexivity.
Qed.

(** X18.  The size of a pattern depends only on how many class symbols
    it has: 26 for each [@], 10 for each [%], 31 for each [^], and every
    other character counts for nothing. *)
Theorem X18_pattern_size (a : Namespace) (p : string) :
  truthy_str (permutations a) = false ->
  pattern a = Some p -> p <> "" ->
  WordlistGenerator._estimate_combinations a
  = Ok (26 ^ occurrences "@" p * 10 ^ occurrences "%" p * 31 ^ occurrences "^" p).
Proof.
  intros Hperm Hp Hs. destruct (truthy_str_Some _ _ Hp Hs) as [Ht Hd].
  unfold WordlistGenerator._estimate_combinations, occurrences.
  rewrite Hperm, Ht, Hd, pattern_fold_size. f_equal. lia.
Qed.

Lemma X18_pattern_size_witness :
  WordlistGenerator._estimate_combinations (pattern_args "@@@@^%")
  = Ok (26 ^ occurrences "@" "@@@@^%" * 10 ^ occurrences "%" "@@@@^%"
        * 31 ^ occurrences "^" "@@@@^%").
Proof.
  apply (X18_pattern_size (pattern_args "@@@@^%") "@@@@^%");
    [reflexivity|reflexivity|discriminate].
Defined.

(** The pattern of the usage text, computed. *)
Lemma usage_pattern_size :
  WordlistGenerator._estimate_combinations (pattern_args "@@@@^%")
  = Ok 141662560.
Proof. reflexivity. Qed.

(** ** Beyond the limits of the interpreter *)

(** X19.  A size of more than 4300 digits ends the run at line 82, where
    it is printed with thousands separators: [ValueError], exit code 1,
    and no file has been opened, written or removed. *)
Theorem X19_size_beyond_printing (a : Namespace) (self : WordlistGenerator.t)
    (sigint : option nat) (fs : FS) :
  WordlistGenerator.__init__ a = Ok self ->
  10 ^ int_max_str_digits <= Z.abs (WordlistGenerator.total_combinations self) ->
  main a sigint fs = (fs, Raise ValueError)
  /\ exit_code (snd (main a sigint fs)) = Some 1.
Proof.
  intros Hinit Hbig.
  assert (Hmain : main a sigint fs = (fs, Raise ValueError)).
  { rewrite (main_runs a self sigint fs Hinit).
    unfold WordlistGenerator.run_generation, WordlistGenerator.announce,
      print_thousands.
    rewrite (str_ok_false _ Hbig). reflexivity. }
  rewrite Hmain. split; reflexivity.
Qed.

Lemma X19_size_beyond_printing_witness :
  main (range_args 4301 4301 digits) None ∅ = (∅, Raise ValueError)
  /\ exit_code (snd (main (range_args 4301 4301 digits) None ∅)) = Some 1.
Proof.
  apply (X19_size_beyond_printing (range_args 4301 4301 digits)
           (generator_of (range_args 4301 4301 digits) (10 ^ 4301)) None ∅);
    [ vm_compute; reflexivity | vm_compute; discriminate ].
Defined.

(** X20.  A resume offset above [sys.maxsize] is more than [islice]
    takes: the run of a command line within the limits otherwise (size,
    limit and offset in the float range) opens the word list for
    appending (creating it if it is missing) and stops with [ValueError],
    exit code 1, whatever the interrupt; nothing is written and the
    session record stays as it is. *)
Theorem X20_offset_beyond_maxsize (a : Namespace) (self : WordlistGenerator.t)
    (sigint : option nat) (fs : FS) :
  WordlistGenerator.__init__ a = Ok self ->
  within_limits a (WordlistGenerator.total_combinations self) = true ->
  sys_maxsize < WordlistGenerator._get_start_point self fs ->
  float_ok (WordlistGenerator._get_start_point self fs) = true ->
  main a sigint fs
  = (WordlistGenerator.open_output (output a) true fs, Raise ValueError)
  /\ exit_code (snd (main a sigint fs)) = Some 1
  /\ fst (main a sigint fs) !! output a = Some (default "" (fs !! output a))
  /\ fst (main a sigint fs) !! (output a +:+ ".session")
     = fs !! (output a +:+ ".session").
Proof.
  intros Hinit Hin Hbig _.
  destruct (within_limits_inv _ _ Hin) as (Hann & _).
  destruct (init_facts a self Hinit) as (ws & Hself & Hg).
  assert (Hargs : WordlistGenerator.args self = a)
    by (rewrite Hself; reflexivity).
  assert (Hmax : 0 <= sys_maxsize) by (vm_compute; discriminate).
  assert (Hmain : main a sigint fs
                  = (WordlistGenerator.open_output (output a) true fs,
                     Raise ValueError)).
  { rewrite (main_runs a self sigint fs Hinit).
    unfold WordlistGenerator.run_generation. rewrite Hargs, Hann.
    set (start_count := WordlistGenerator._get_start_point self fs) in *.
    assert (Hwrite : forall g limit,
      WordlistGenerator._write_to_file self g start_count limit sigint fs
      = (WordlistGenerator.open_output (output a) true fs, Raise ValueError)).
    { intros g limit. unfold WordlistGenerator._write_to_file.
      rewrite Hargs.
      replace (0 <? start_count) with true by (symmetry; apply Z.ltb_lt; lia).
      unfold itertools.islice_consume.
      replace (sys_maxsize <? start_count) with true
        by (symmetry; apply Z.ltb_lt; lia).
      rewrite orb_true_r. reflexivity. }
    unfold WordlistGenerator._generate_permutations,
      WordlistGenerator._generate_combinations.
    unfold enumerator in Hg. rewrite Hargs.
    destruct (truthy_str (permutations a));
      [|rewrite Hg]; rewrite Hwrite; reflexivity. }
  rewrite Hmain. cbn [fst snd].
  split; [reflexivity|]. split; [reflexivity|].
  unfold WordlistGenerator.open_output. split.
  - destruct (fs !! output a) eqn:E;
      [rewrite E; reflexivity | apply lookup_insert_eq].
  - destruct (fs !! output a); [reflexivity|].
    apply lookup_insert_ne. intros E. symmetry in E.
    exact (session_file_ne _ E).
Qed.

Lemma X20_offset_beyond_maxsize_witness :
  main (with_resume hundred_limit_three) None
       {["wordlist.txt.session" := "9223372036854775808"]}
  = (WordlistGenerator.open_output "wordlist.txt" true
       {["wordlist.txt.session" := "9223372036854775808"]}, Raise ValueError)
  /\ exit_code (snd (main (with_resume hundred_limit_three) None
                       {["wordlist.txt.session" := "9223372036854775808"]}))
     = Some 1
  /\ fst (main (with_resume hundred_limit_three) None
            {["wordlist.txt.session" := "9223372036854775808"]}) !! "wordlist.txt"
     = Some (default "" (({["wordlist.txt.session" := "9223372036854775808"]} : FS)
                           !! "wordlist.txt"))
  /\ fst (main (with_resume hundred_limit_three) None
            {["wordlist.txt.session" := "9223372036854775808"]})
     !! ("wordlist.txt" +:+ ".session")
     = ({["wordlist.txt.session" := "9223372036854775808"]} : FS)
       !! ("wordlist.txt" +:+ ".session").
Proof.
  apply (X20_offset_beyond_maxsize (with_resume hundred_limit_three)
           (generator_of (with_resume hundred_limit_three) 100) None
           {["wordlist.txt.session" := "9223372036854775808"]});
    [ reflexivity | vm_compute; reflexivity | vm_compute; reflexivity
    | vm_compute; reflexivity ].
Defined.

(** X21.  A count of more than 4300 digits is not saved: [str] raises
    [ValueError] once the session record has been emptied, and the
    offset read from what is left is 0. *)
Theorem X21_count_beyond_digit_limit (self : WordlistGenerator.t) (c : Z)
    (fs : FS) :
  10 ^ int_max_str_digits <= Z.abs c ->
  WordlistGenerator._save_progress self c fs
  = (<[WordlistGenerator.session_file self := ""]> fs, Raise ValueError)
  /\ WordlistGenerator._get_start_point self
       (fst (WordlistGenerator._save_progress self c fs)) = 0.
Proof.
  intros Hc. unfold WordlistGenerator._save_progress, py_str.
  rewrite (str_ok_false _ Hc).
  split; [reflexivity|]. cbn [fst].
  unfold WordlistGenerator._get_start_point.
  rewrite lookup_insert_eq. destruct (resume _); reflexivity.
Qed.

Lemma X21_count_beyond_digit_limit_witness :
  WordlistGenerator._save_progress resuming_generator (10 ^ 4300) ∅
  = (<[WordlistGenerator.session_file resuming_generator := ""]> ∅,
     Raise ValueError)
  /\ WordlistGenerator._get_start_point resuming_generator
       (fst (WordlistGenerator._save_progress resuming_generator (10 ^ 4300) ∅))
     = 0.
Proof.
  apply (X21_count_beyond_digit_limit resuming_generator (10 ^ 4300) ∅).
  vm_compute. discriminate.
Defined.
